(** * AcreBlitz gateway, Python service: the weather router

    A shallow embedding of [routers/weather.py] (the grid-point cache, the
    three upstream fetches and the forecast endpoint) and the properties of
    its specification.

    Python values are modelled as they reach the code:
    - a [float] is an IEEE binary64 value, Rocq's primitive [float];
    - an [int] is an unbounded [Z];
    - a decoded JSON document is the tree [json_value];
    - the module-level dict [grid_point_cache] is a [gmap] from the key
      string to its entry, threaded through an explicit state;
    - [raise]/[try ... except] is a result type inside a state monad, so
      that what was sent upstream before an exception stays recorded. *)

From Stdlib Require Import ZArith QArith Floats DecimalString.
From stdpp Require Import gmap strings list.

Set Warnings "-register-all,-inexact-float".
Local Open Scope Z_scope.

(** ** Numbers *)

Module Num.

(** Quotient [n / d] rounded to the nearest integer, a tie going to the
    even neighbour ([d] positive).  Both [round(x)] on a float and the
    [".4f"] format resolve ties this way on the exact binary value. *)
Definition div_round_half_even (n d : Z) : Z :=
  let q := n / d in
  let r := n mod d in
  match (2 * r ?= d) with
  | Lt => q
  | Gt => q + 1
  | Eq => if Z.even q then q else q + 1
  end.

(** Magnitude of the finite float with mantissa [m] and exponent [e],
    multiplied by [k] and rounded half-even to an integer. *)
Definition scaled_round (k : Z) (m : positive) (e : Z) : Z :=
  if 0 <=? e then k * Z.pos m * 2 ^ e
  else div_round_half_even (k * Z.pos m) (2 ^ (- e)).

(** The same magnitude with the fraction cut off, as a truncation would. *)
Definition scaled_trunc (k : Z) (m : positive) (e : Z) : Z :=
  if 0 <=? e then k * Z.pos m * 2 ^ e
  else (k * Z.pos m) / 2 ^ (- e).

(** The rational [m * 2 ^ e]. *)
Definition magnitude (m : positive) (e : Z) : Q :=
  if 0 <=? e then inject_Z (Z.pos m * 2 ^ e)
  else Qmake (Z.pos m) (Z.to_pos (2 ^ (- e))).

(** Exact rational value of a float (0 for the non-finite ones). *)
Definition F2Q (f : float) : Q :=
  match Prim2SF f with
  | S754_finite s m e => if s then Qopp (magnitude m e) else magnitude m e
  | _ => 0%Q
  end.

(** [n] is an integer nearest to the rational [q]. *)
Definition nearest_integer (n : Z) (q : Q) : Prop :=
  (q - (1 # 2) <= inject_Z n /\ inject_Z n <= q + (1 # 2))%Q.

(** [p] holds on [lo], [lo + 1], ..., [lo + n - 1]. *)
Fixpoint holds_from (p : Z -> bool) (lo : Z) (n : nat) : bool :=
  match n with
  | O => true
  | S n' => p lo && holds_from p (lo + 1) n'
  end.

End Num.

(** ** Python values and exceptions *)

Module Py.

(** What [response.json()] returns: [None], [bool], [int], [float], [str],
    [list], or a [dict] with string keys, given by its items in insertion
    order (keys distinct, as in a dict). *)
Inductive json_value : Type :=
| JNull
| JBool (b : bool)
| JInt (z : Z)
| JFloat (f : float)
| JStr (s : string)
| JList (l : list json_value)
| JObj (items : list (string * json_value)).

(** The exceptions the router meets, all subclasses of [Exception].
    [HTTPStatusError] keeps [e.response.status_code] and [e.response.text];
    [RequestError] keeps [str(e)]; [HTTPException] is FastAPI's. *)
Inductive exn : Type :=
| HTTPStatusError (status_code : Z) (text : string)
| RequestError (msg : string)
| KeyError (key : string)
| IndexError
| TypeError
| AttributeError
| ValueError
| OverflowError
| JSONDecodeError
| InvalidURL
| HTTPException (status_code : Z) (detail : string).

Inductive result (A : Type) : Type :=
| Ok (a : A)
| Raise (e : exn).
Arguments Ok {A} a.
Arguments Raise {A} e.

#[export] Instance result_ret : MRet result := fun A a => Ok a.
#[export] Instance result_bind : MBind result := fun A B f r =>
  match r with
  | Ok a => f a
  | Raise e => Raise e
  end.

Definition is_ok {A} (r : result A) : bool :=
  match r with Ok _ => true | Raise _ => false end.

Fixpoint dict_lookup (k : string) (items : list (string * json_value))
  : option json_value :=
  match items with
  | [] => None
  | (k', v) :: rest => if String.eqb k k' then Some v else dict_lookup k rest
  end.

(** [v[k]] for a string key [k]. *)
Definition getitem (v : json_value) (k : string) : result json_value :=
  match v with
  | JObj items =>
      match dict_lookup k items with
      | Some x => Ok x
      | None => Raise (KeyError k)
      end
  | _ => Raise TypeError
  end.

(** [v[0]]. *)
Definition getitem0 (v : json_value) : result json_value :=
  match v with
  | JList (x :: _) => Ok x
  | JList [] => Raise IndexError
  | JStr (String c _) => Ok (JStr (String c EmptyString))
  | JStr EmptyString => Raise IndexError
  | JObj _ => Raise (KeyError "0")
  | _ => Raise TypeError
  end.

(** [v.get(k, default)]; only a dict has the method. *)
Definition get (v : json_value) (k : string) (default : json_value)
  : result json_value :=
  match v with
  | JObj items =>
      match dict_lookup k items with
      | Some x => Ok x
      | None => Ok default
      end
  | _ => Raise AttributeError
  end.

(** [bool(v)]. *)
Definition truthy (v : json_value) : bool :=
  match v with
  | JNull => false
  | JBool b => b
  | JInt z => negb (z =? 0)
  | JFloat f => negb (PrimFloat.eqb f 0%float)
  | JStr s => negb (String.eqb s "")
  | JList l => match l with [] => false | _ => true end
  | JObj items => match items with [] => false | _ => true end
  end.

(** [a or b]. *)
Definition or_else (a b : json_value) : json_value :=
  if truthy a then a else b.

(** The elements [for x in v] goes through. *)
Definition iter (v : json_value) : result (list json_value) :=
  match v with
  | JList l => Ok l
  | JObj items => Ok (map (fun kv => JStr (fst kv)) items)
  | JStr s =>
      Ok (map (fun c => JStr (String c EmptyString)) (String.list_ascii_of_string s))
  | _ => Raise TypeError
  end.

(** [round(x)] on a float: nearest integer of the exact value, ties to
    even; [OverflowError] on an infinity, [ValueError] on a NaN. *)
Definition round (x : float) : result Z :=
  match Prim2SF x with
  | S754_zero _ => Ok 0
  | S754_infinity _ => Raise OverflowError
  | S754_nan => Raise ValueError
  | S754_finite s m e =>
      let n := Num.scaled_round 1 m e in
      Ok (if s then - n else n)
  end.

(** [a / b] on two ints, [b] positive: the float nearest to the exact
    quotient, [OverflowError] when it is out of range. *)
Definition int_truediv (a : Z) (b : positive) : result float :=
  match a with
  | Z0 => Ok 0%float
  | _ =>
      let '(q, e, l) :=
        SFdiv_core_binary prec emax (Z.abs a) 0 (Z.pos b) 0 in
      match binary_round_aux prec emax (a <? 0) q e l with
      | S754_infinity _ => Raise OverflowError
      | r => Ok (SF2Prim r)
      end
  end.

(** The decimal digits of a natural number. *)
Definition decimal (d : Z) : string :=
  NilZero.string_of_uint (N.to_uint (Z.to_N d)).

(** [f"{x:.4f}"]: the exact value rounded half-even to four decimals. *)
Definition format_4f (x : float) : string :=
  match Prim2SF x with
  | S754_nan => "nan"
  | S754_infinity s => if s then "-inf" else "inf"
  | S754_zero s => if s then "-0.0000" else "0.0000"
  | S754_finite s m e =>
      let n := Num.scaled_round 10000 m e in
      (if s then "-" else "") +:+ decimal (n / 10000) +:+ "."
        +:+ decimal (n / 1000 mod 10) +:+ decimal (n / 100 mod 10)
        +:+ decimal (n / 10 mod 10) +:+ decimal (n mod 10)
  end.

End Py.

(** ** The weather router *)

Module Weather.
Import Py.

(** The dict built by [get_grid_point] and stored in the cache. *)
Record GridPoint : Type := {
  gridId : json_value;
  gridX : json_value;
  gridY : json_value;
  forecastHourly : json_value;
  observationStations : json_value;
  city : json_value;
  state : json_value
}.

(** A value of [grid_point_cache]: [{"data": ..., "timestamp": ...}]. *)
Record CacheEntry : Type := {
  data : GridPoint;
  timestamp : float
}.

(** One element of the list [get_hourly_forecast] returns. *)
Record ForecastPeriod : Type := {
  time : json_value;
  temperature : json_value;
  temperatureUnit : json_value;
  precipitationChance : json_value;
  relativeHumidity : json_value;
  windSpeed : json_value;
  windDirection : json_value;
  icon : json_value;
  shortForecast : json_value;
  isDaytime : json_value
}.

(** The dict [get_current_conditions] returns. *)
Record CurrentConditions : Type := {
  cc_timestamp : json_value;
  cc_temperature : option Z;
  cc_temperatureUnit : string;
  cc_description : json_value;
  cc_icon : json_value;
  cc_humidity : json_value;
  cc_windSpeed : json_value;
  cc_windDirection : json_value;
  cc_pressure : json_value
}.

Record Location : Type := {
  loc_city : json_value;
  loc_state : json_value;
  loc_gridId : json_value;
  loc_gridX : json_value;
  loc_gridY : json_value
}.

(** The dict [get_forecast] returns. *)
Record ForecastResponse : Type := {
  location : Location;
  currentConditions : option CurrentConditions;
  hourlyForecast : list ForecastPeriod;
  updated : string
}.

(** The URL of an outbound GET, kept by the way the code builds it:
    [PointsUrl lat lon] is [f"{WEATHER_API_BASE}/points/{lat},{lon}"],
    [LatestObservationUrl id] is [f"{id}/observations/latest"], and [Url s]
    is a string taken from an earlier payload.  Every GET carries the same
    headers and the 10 second timeout, which are left out. *)
Inductive url : Type :=
| PointsUrl (lat lon : float)
| Url (s : string)
| LatestObservationUrl (station_id : json_value).

(** An [httpx.Response]: [json] is [None] when [response.json()] fails to
    decode the body. *)
Record Response : Type := {
  status_code : Z;
  text : string;
  json : option json_value
}.

(** What [await client.get(...)] does: return a response, or raise an
    [httpx.RequestError] (timeout, DNS, connection refused). *)
Inductive reply : Type :=
| Replied (r : Response)
| Unreachable (msg : string).

(** The state of the process: the module-level cache, the GETs sent so far
    (latest first) and the number of clock readings taken so far. *)
Record State : Type := {
  grid_point_cache : gmap string CacheEntry;
  requests : list url;
  ticks : nat
}.

(** The status of FastAPI's default answer to a request validation error. *)
Definition HTTP_422_UNPROCESSABLE_ENTITY : Z := 422.

(** How a request to the route ends: with the forecast (status 200), with
    an [HTTPException] of the handler, which the framework answers with the
    status of the exception, or with the framework's own answer to query
    parameters that fail validation. *)
Inductive http_response : Type :=
| Success (body : ForecastResponse)
| Failure (status : Z) (detail : string)
| RequestValidationError.

Definition status_of (r : http_response) : Z :=
  match r with
  | Success _ => 200
  | Failure st _ => st
  | RequestValidationError => HTTP_422_UNPROCESSABLE_ENTITY
  end.

(** A computation of the router: it reads and changes the state, and
    returns or raises. *)
Definition M (A : Type) : Type := State -> result A * State.

#[export] Instance M_ret : MRet M := fun A a s => (Ok a, s).
#[export] Instance M_bind : MBind M := fun A B f c s =>
  match c s with
  | (Ok a, s') => f a s'
  | (Raise e, s') => (Raise e, s')
  end.

Definition raise {A} (e : exn) : M A := fun s => (Raise e, s).

Definition lift {A} (r : result A) : M A := fun s => (r, s).

(** [try: body except Exception as e: handler e]. *)
Definition try_except {A} (body : M A) (handler : exn -> M A) : M A :=
  fun s =>
    match body s with
    | (Ok a, s') => (Ok a, s')
    | (Raise e, s') => handler e s'
    end.

Definition GRID_CACHE_TTL : Z := 24 * 60 * 60.

Definition cache_get (k : string) : M (option CacheEntry) :=
  fun s => (Ok (grid_point_cache s !! k), s).

Definition stored (k : string) (e : CacheEntry) (s : State) : State :=
  {| grid_point_cache := <[k := e]> (grid_point_cache s);
     requests := requests s;
     ticks := ticks s |}.

(** The state after one more reading of the clock. *)
Definition tick (s : State) : State :=
  {| grid_point_cache := grid_point_cache s;
     requests := requests s;
     ticks := S (ticks s) |}.

(** The state after one more GET. *)
Definition sent (u : url) (s : State) : State :=
  {| grid_point_cache := grid_point_cache s;
     requests := u :: requests s;
     ticks := ticks s |}.

Definition cache_set (k : string) (e : CacheEntry) : M unit :=
  fun s => (Ok tt, stored k e s).

(** [now - stamp < GRID_CACHE_TTL]. *)
Definition within_ttl (now stamp : float) : bool :=
  (now - stamp <? of_uint63 (Uint63.of_Z GRID_CACHE_TTL))%float.

Definition is_success (r : Response) : bool :=
  (200 <=? status_code r) && (status_code r <=? 299).

Arguments within_ttl : simpl never.
Arguments is_success : simpl never.
Arguments stored : simpl never.
Arguments tick : simpl never.
Arguments sent : simpl never.

Definition raise_for_status (r : Response) : M unit :=
  if is_success r then mret tt
  else raise (HTTPStatusError (status_code r) (text r)).

Definition response_json (r : Response) : M json_value :=
  match json r with
  | Some v => mret v
  | None => raise JSONDecodeError
  end.

(** [celsius_to_fahrenheit]: [None] for [None]; on a float the three float
    operations and [round]; on an int (or bool) the product is an int, the
    division is the true division of ints and the sum a float sum; any
    other value cannot be divided. *)
Definition celsius_to_fahrenheit (celsius : json_value) : result (option Z) :=
  match celsius with
  | JNull => Ok None
  | JFloat c => f ← round ((c * 9) / 5 + 32)%float; Ok (Some f)
  | JInt z =>
      x ← int_truediv (z * 9) 5; f ← round (x + 32)%float; Ok (Some f)
  | JBool b =>
      x ← int_truediv ((if b then 1 else 0) * 9) 5;
      f ← round (x + 32)%float; Ok (Some f)
  | _ => Raise TypeError
  end.

(** [f"{lat:.4f},{lon:.4f}"]. *)
Definition cache_key (lat lon : float) : string :=
  format_4f lat +:+ "," +:+ format_4f lon.

(** The dict display of [get_grid_point], fields in evaluation order. *)
Definition grid_point_of_props (props : json_value) : result GridPoint :=
  gridId ← getitem props "gridId";
  gridX ← getitem props "gridX";
  gridY ← getitem props "gridY";
  forecastHourly ← getitem props "forecastHourly";
  observationStations ← getitem props "observationStations";
  city ← (l ← getitem props "relativeLocation";
          p ← getitem l "properties"; getitem p "city");
  state ← (l ← getitem props "relativeLocation";
           p ← getitem l "properties"; getitem p "state");
  Ok {| gridId := gridId; gridX := gridX; gridY := gridY;
        forecastHourly := forecastHourly;
        observationStations := observationStations;
        city := city; state := state |}.

(** [container.get(k, {}).get("value")]. *)
Definition nested_value (container : json_value) (k : string)
  : result json_value :=
  c ← get container k (JObj []); get c "value" JNull.

(** The dict display inside the comprehension of [get_hourly_forecast]. *)
Definition forecast_period (period : json_value) : result ForecastPeriod :=
  time ← getitem period "startTime";
  temperature ← getitem period "temperature";
  temperatureUnit ← getitem period "temperatureUnit";
  precipitationChance ← nested_value period "probabilityOfPrecipitation";
  relativeHumidity ← nested_value period "relativeHumidity";
  windSpeed ← getitem period "windSpeed";
  windDirection ← getitem period "windDirection";
  icon ← getitem period "icon";
  shortForecast ← getitem period "shortForecast";
  isDaytime ← getitem period "isDaytime";
  Ok {| time := time; temperature := temperature;
        temperatureUnit := temperatureUnit;
        precipitationChance := precipitationChance;
        relativeHumidity := relativeHumidity;
        windSpeed := windSpeed; windDirection := windDirection;
        icon := icon; shortForecast := shortForecast;
        isDaytime := isDaytime |}.

(** [[f(x) for x in xs]]: elements in order, stopping at the first raise. *)
Fixpoint comprehension {A B} (f : A -> result B) (xs : list A)
  : result (list B) :=
  match xs with
  | [] => Ok []
  | x :: rest => y ← f x; ys ← comprehension f rest; Ok (y :: ys)
  end.

(** Lines 121 to 134 of [get_current_conditions], on the observation's
    ["properties"]. *)
Definition conditions_of_props (props : json_value)
  : result CurrentConditions :=
  temp_c ← nested_value props "temperature";
  temp_f ← celsius_to_fahrenheit temp_c;
  timestamp ← get props "timestamp" JNull;
  textDescription ← get props "textDescription" JNull;
  icon ← get props "icon" JNull;
  humidity ← nested_value props "relativeHumidity";
  windSpeed ← nested_value props "windSpeed";
  windDirection ← nested_value props "windDirection";
  pressure ← nested_value props "barometricPressure";
  Ok {| cc_timestamp := timestamp;
        cc_temperature := temp_f;
        cc_temperatureUnit := "F";
        cc_description := or_else textDescription (JStr "N/A");
        cc_icon := or_else icon (JStr "");
        cc_humidity := humidity;
        cc_windSpeed := windSpeed;
        cc_windDirection := windDirection;
        cc_pressure := pressure |}.

(** [Query(..., ge=lo, le=hi)] on a parsed float. *)
Definition Query_ge_le (lo hi : float) (v : float) : bool :=
  (lo <=? v)%float && (v <=? hi)%float.

(** [v] is not in the interval from [lo] to [hi]: below it, above it, or
    not a number. *)
Definition outside (lo hi v : float) : bool :=
  (v <? lo)%float || (hi <? v)%float || is_nan v.

Section World.

(** The outside of the process: the reply to the [n]-th outbound GET, the
    [n]-th reading of the clock as [time.time()] and as
    [datetime.utcnow().isoformat()], and [str(e)] of a built-in exception. *)
Variable upstream : nat -> url -> reply.
Variable clock : nat -> float.
Variable utcnow : nat -> string.
Variable str_exn : exn -> string.

(** Whether httpx accepts the text of a URL taken from a payload; the
    points URL, built from two floats, always is one. *)
Variable parses : url -> bool.

Definition time_time : M float :=
  fun s => (Ok (clock (ticks s)), tick s).

Definition utcnow_isoformat : M string :=
  fun s => (Ok (utcnow (ticks s)), tick s).

(** [await client.get(u, headers=..., timeout=10.0)]. *)
Definition client_get (u : url) : M Response :=
  fun s =>
    match upstream (length (requests s)) u with
    | Replied r => (Ok r, sent u s)
    | Unreachable msg => (Raise (RequestError msg), sent u s)
    end.

(** [client.get] on a URL made from a payload: text that is no URL is
    refused with [httpx.InvalidURL] before anything is sent. *)
Definition client_get_checked (u : url) : M Response :=
  if parses u then client_get u else raise InvalidURL.

(** [client.get] on a value from a payload: a URL that is not a [str] is
    refused with a [TypeError] before anything is sent. *)
Definition client_get_value (u : json_value) : M Response :=
  match u with
  | JStr s => client_get_checked (Url s)
  | _ => raise TypeError
  end.

Definition get_grid_point (lat lon : float) : M GridPoint :=
  let key := cache_key lat lon in
  cached ← cache_get key;
  hit ← match cached with
        | Some entry =>
            now ← time_time;
            mret (if within_ttl now (timestamp entry)
                  then Some (data entry) else None)
        | None => mret None
        end;
  match hit with
  | Some d => mret d
  | None =>
      response ← client_get (PointsUrl lat lon);
      raise_for_status response;;
      body ← response_json response;
      props ← lift (getitem body "properties");
      d ← lift (grid_point_of_props props);
      now ← time_time;
      cache_set key {| data := d; timestamp := now |};;
      mret d
  end.

(** Whether [get_grid_point] goes upstream in state [s]: no entry, or one
    that is not within its time to live. *)
Definition misses (lat lon : float) (s : State) : Prop :=
  match grid_point_cache s !! cache_key lat lon with
  | Some e => within_ttl (clock (ticks s)) (timestamp e) = false
  | None => True
  end.

(** The state in which the GET is sent: the clock was read if and only if
    there was an entry to check. *)
Definition checked (lat lon : float) (s : State) : State :=
  match grid_point_cache s !! cache_key lat lon with
  | Some _ => tick s
  | None => s
  end.

Definition get_hourly_forecast (u : json_value) : M (list ForecastPeriod) :=
  response ← client_get_value u;
  raise_for_status response;;
  body ← response_json response;
  props ← lift (getitem body "properties");
  periods ← lift (getitem props "periods");
  ps ← lift (iter periods);
  lift (comprehension forecast_period ps).

(** The body of the [try] of [get_current_conditions]. *)
Definition current_conditions_body (stations_url : json_value)
  : M (option CurrentConditions) :=
  stations_response ← client_get_value stations_url;
  raise_for_status stations_response;;
  body ← response_json stations_response;
  stations ← lift (getitem body "features");
  if negb (truthy stations) then mret None
  else
    first ← lift (getitem0 stations);
    station_id ← lift (getitem first "id");
    obs_response ← client_get_checked (LatestObservationUrl station_id);
    raise_for_status obs_response;;
    obs ← response_json obs_response;
    props ← lift (getitem obs "properties");
    cc ← lift (conditions_of_props props);
    mret (Some cc).

Definition get_current_conditions (stations_url : json_value)
  : M (option CurrentConditions) :=
  try_except (current_conditions_body stations_url) (fun _ => mret None).

(** The body of the [try] of [get_forecast]. *)
Definition forecast_body (lat lon : float) : M ForecastResponse :=
  grid_point ← get_grid_point lat lon;
  hourly_forecast ← get_hourly_forecast (forecastHourly grid_point);
  current_conditions ← get_current_conditions (observationStations grid_point);
  now ← utcnow_isoformat;
  mret {| location := {| loc_city := city grid_point;
                         loc_state := state grid_point;
                         loc_gridId := gridId grid_point;
                         loc_gridX := gridX grid_point;
                         loc_gridY := gridY grid_point |};
          currentConditions := current_conditions;
          hourlyForecast := hourly_forecast;
          updated := now +:+ "Z" |}.

Definition get_forecast (lat lon : float) : M ForecastResponse :=
  try_except (forecast_body lat lon)
    (fun e =>
       match e with
       | HTTPStatusError st body =>
           raise (HTTPException st ("Weather API error: " +:+ body))
       | RequestError msg =>
           raise (HTTPException 503 ("Weather API unavailable: " +:+ msg))
       | _ =>
           raise (HTTPException 500 ("Failed to fetch weather: " +:+ str_exn e))
       end).

(** [GET /weather/forecast?lat=..&lon=..] as FastAPI serves it: the [Query]
    constraints are checked before the handler is called, and a parameter
    that fails them is answered by the framework's default handler of
    request validation errors, status 422 ([main.py] installs no other). *)
Definition forecast_route (lat lon : float) : State -> http_response * State :=
  fun s =>
    if Query_ge_le (-90) 90 lat && Query_ge_le (-180) 180 lon then
      match get_forecast lat lon s with
      | (Ok body, s') => (Success body, s')
      | (Raise (HTTPException st d), s') => (Failure st d, s')
      | (Raise _, s') => (Failure 500 "Internal Server Error", s')
      end
    else (RequestValidationError, s).

End World.

End Weather.

(** ** The specification's words, and sample upstreams *)

Module SpecWords.
Import Py.

(** The coordinate cut off after four decimals, written like [".4f"]. *)
Definition truncate_4f (x : float) : string :=
  match Prim2SF x with
  | S754_nan => "nan"
  | S754_infinity s => if s then "-inf" else "inf"
  | S754_zero s => if s then "-0.0000" else "0.0000"
  | S754_finite s m e =>
      let n := Num.scaled_trunc 10000 m e in
      (if s then "-" else "") +:+ decimal (n / 10000) +:+ "."
        +:+ decimal (n / 1000 mod 10) +:+ decimal (n / 100 mod 10)
        +:+ decimal (n / 10 mod 10) +:+ decimal (n mod 10)
  end.

(** [round(celsius * 9/5 + 32)] in exact arithmetic, on an integer. *)
Definition exact_fahrenheit (z : Z) : Z :=
  Num.div_round_half_even (9 * z + 160) 5.

Definition agrees_with_exact (z : Z) : bool :=
  match Weather.celsius_to_fahrenheit (JInt z) with
  | Ok (Some n) => n =? exact_fahrenheit z
  | _ => false
  end.

(** An optional nested [{value}] object: the value, or null when the value
    or its container is absent. *)
Definition optional_value (period : json_value) (k : string) : json_value :=
  match period with
  | JObj items =>
      match dict_lookup k items with
      | Some (JObj c) =>
          match dict_lookup "value" c with
          | Some v => v
          | None => JNull
          end
      | _ => JNull
      end
  | _ => JNull
  end.

Definition field (period : json_value) (k : string) : json_value :=
  match period with
  | JObj items =>
      match dict_lookup k items with
      | Some v => v
      | None => JNull
      end
  | _ => JNull
  end.

(** An upstream period in the ForecastPeriod shape. *)
Definition period_shape (period : json_value) : Weather.ForecastPeriod :=
  {| Weather.time := field period "startTime";
     Weather.temperature := field period "temperature";
     Weather.temperatureUnit := field period "temperatureUnit";
     Weather.precipitationChance :=
       optional_value period "probabilityOfPrecipitation";
     Weather.relativeHumidity := optional_value period "relativeHumidity";
     Weather.windSpeed := field period "windSpeed";
     Weather.windDirection := field period "windDirection";
     Weather.icon := field period "icon";
     Weather.shortForecast := field period "shortForecast";
     Weather.isDaytime := field period "isDaytime" |}.

Definition has_key (k : string) (items : list (string * json_value)) : bool :=
  match dict_lookup k items with
  | Some _ => true
  | None => false
  end.

Definition optional_container (k : string) (items : list (string * json_value))
  : bool :=
  match dict_lookup k items with
  | None | Some (JObj _) => true
  | Some _ => false
  end.

(** A period as upstream documents it: an object with the eight plain
    fields, each optional container absent or an object. *)
Definition well_formed_period (period : json_value) : bool :=
  match period with
  | JObj items =>
      has_key "startTime" items && has_key "temperature" items
      && has_key "temperatureUnit" items
      && optional_container "probabilityOfPrecipitation" items
      && optional_container "relativeHumidity" items
      && has_key "windSpeed" items && has_key "windDirection" items
      && has_key "icon" items && has_key "shortForecast" items
      && has_key "isDaytime" items
  | _ => false
  end.

(** The key "built by truncating to 4 decimal places". *)
Definition truncated_key (lat lon : float) : string :=
  truncate_4f lat +:+ "," +:+ truncate_4f lon.

End SpecWords.

Module Sample.
Import Py Weather.

Definition forecast_url : string :=
  "https://api.weather.gov/gridpoints/OKX/33,35/forecast/hourly".
Definition stations_url : string :=
  "https://api.weather.gov/gridpoints/OKX/33,35/stations".

Definition points_body : json_value :=
  JObj [("properties", JObj [
    ("gridId", JStr "OKX"); ("gridX", JInt 33); ("gridY", JInt 35);
    ("forecastHourly", JStr forecast_url);
    ("observationStations", JStr stations_url);
    ("relativeLocation", JObj [("properties", JObj [
       ("city", JStr "New York"); ("state", JStr "NY")])])])].

Definition new_york : GridPoint :=
  {| gridId := JStr "OKX"; gridX := JInt 33; gridY := JInt 35;
     forecastHourly := JStr forecast_url;
     observationStations := JStr stations_url;
     city := JStr "New York"; state := JStr "NY" |}.

(** A period with both optional containers, and one with
    ["probabilityOfPrecipitation"] missing and an empty
    ["relativeHumidity"]. *)
Definition period_1 : json_value :=
  JObj [("startTime", JStr "2024-01-01T10:00:00-05:00");
        ("temperature", JInt 41); ("temperatureUnit", JStr "F");
        ("probabilityOfPrecipitation",
           JObj [("unitCode", JStr "wmoUnit:percent"); ("value", JInt 30)]);
        ("relativeHumidity", JObj [("value", JInt 65)]);
        ("windSpeed", JStr "10 mph"); ("windDirection", JStr "NW");
        ("icon", JStr "https://api.weather.gov/icons/land/day/few");
        ("shortForecast", JStr "Sunny"); ("isDaytime", JBool true)].

Definition period_2 : json_value :=
  JObj [("startTime", JStr "2024-01-01T11:00:00-05:00");
        ("temperature", JInt 43); ("temperatureUnit", JStr "F");
        ("relativeHumidity", JObj []);
        ("windSpeed", JStr "12 mph"); ("windDirection", JStr "N");
        ("icon", JStr "https://api.weather.gov/icons/land/day/sct");
        ("shortForecast", JStr "Mostly Sunny"); ("isDaytime", JBool true)].

Definition forecast_body : json_value :=
  JObj [("properties", JObj [("periods", JList [period_1; period_2; period_1])])].

Definition stations_body : json_value :=
  JObj [("features",
         JList [JObj [("id", JStr "https://api.weather.gov/stations/KNYC")];
                JObj [("id", JStr "https://api.weather.gov/stations/KJFK")]])].

Definition no_stations_body : json_value := JObj [("features", JList [])].

(** An observation whose description and icon are present and empty. *)
Definition observation_body : json_value :=
  JObj [("properties", JObj [
    ("timestamp", JStr "2024-01-01T14:51:00+00:00");
    ("textDescription", JStr ""); ("icon", JStr "");
    ("temperature", JObj [("value", JFloat 2.5)]);
    ("relativeHumidity", JObj [("value", JFloat 61.5)]);
    ("windSpeed", JObj [("value", JNull)]);
    ("barometricPressure", JObj [("value", JInt 101660)])])].

Definition ok_reply (body : json_value) : reply :=
  Replied {| status_code := 200; text := "{...}"; json := Some body |}.

Definition unavailable : reply :=
  Replied {| status_code := 503; text := "Service Unavailable"; json := None |}.

(** An upstream that answers every request. *)
Definition upstream (n : nat) (u : url) : reply :=
  match u with
  | PointsUrl _ _ => ok_reply points_body
  | Url s => if String.eqb s forecast_url then ok_reply forecast_body
             else ok_reply stations_body
  | LatestObservationUrl _ => ok_reply observation_body
  end.

(** The same with an empty station list. *)
Definition upstream_no_stations (n : nat) (u : url) : reply :=
  match u with
  | Url s => if String.eqb s forecast_url then ok_reply forecast_body
             else ok_reply no_stations_body
  | _ => upstream n u
  end.

(** The same with the hourly forecast answering 503. *)
Definition upstream_hourly_503 (n : nat) (u : url) : reply :=
  match u with
  | Url s => if String.eqb s forecast_url then unavailable
             else ok_reply stations_body
  | _ => upstream n u
  end.

(** The same with the points lookup answering 503. *)
Definition upstream_points_503 (n : nat) (u : url) : reply :=
  match u with
  | PointsUrl _ _ => unavailable
  | _ => upstream n u
  end.

(** A clock that advances one second per reading. *)
Definition clock (n : nat) : float :=
  (1700000000 + of_uint63 (Uint63.of_Z (Z.of_nat n)))%float.

Definition utcnow (n : nat) : string := "2023-11-14T22:13:20".

Definition str_exn (e : exn) : string := "error".

Definition parses (u : url) : bool := true.

Definition state0 : State :=
  {| grid_point_cache := ∅; requests := []; ticks := 0 |}.

(** A state whose entry for New York was stored long ago. *)
Definition state_stale : State :=
  {| grid_point_cache :=
       {[ "40.7129,-74.0059" := {| data := new_york; timestamp := 1600000000 |} ]};
     requests := []; ticks := 0 |}.

(** A state whose entry for New York was stored an hour before. *)
Definition state_fresh : State :=
  {| grid_point_cache :=
       {[ "40.7129,-74.0059" := {| data := new_york; timestamp := 1699996400 |} ]};
     requests := []; ticks := 0 |}.

(** What [observation_body] becomes. *)
Definition observed : CurrentConditions :=
  {| cc_timestamp := JStr "2024-01-01T14:51:00+00:00";
     cc_temperature := Some 36;
     cc_temperatureUnit := "F";
     cc_description := JStr "N/A";
     cc_icon := JStr "";
     cc_humidity := JFloat 61.5;
     cc_windSpeed := JNull;
     cc_windDirection := JNull;
     cc_pressure := JInt 101660 |}.

End Sample.

(** ** Effects of a computation, and more samples *)

Module Effects.
Import Py Weather.

(** A computation that leaves the state as it found it. *)
Definition preserves {A} (c : M A) : Prop := forall s, snd (c s) = s.

(** Two upstreams that answer alike on every URL but the points URL. *)
Definition agree_off_points (up up' : nat -> url -> reply) : Prop :=
  forall (n : nat) (u : url),
    match u with
    | PointsUrl _ _ => True
    | _ => up n u = up' n u
    end.

(** The float of a small integer, as [float(z)] gives it. *)
Definition float_of_Z (z : Z) : float :=
  if z <? 0 then (- of_uint63 (Uint63.of_Z (- z)))%float
  else of_uint63 (Uint63.of_Z z).

Definition same_fahrenheit (z : Z) : bool :=
  match celsius_to_fahrenheit (JInt z),
        celsius_to_fahrenheit (JFloat (float_of_Z z)) with
  | Ok (Some a), Ok (Some b) => a =? b
  | _, _ => false
  end.

(** A JSON value that is not a number, a bool or null, or a float that is
    not finite. *)
Definition unusable_temperature (v : json_value) : bool :=
  match v with
  | JStr _ | JList _ | JObj _ => true
  | JFloat c => is_nan c || is_infinity c
  | _ => false
  end.

(** The sign of a float that is a number: set for the negative ones, the
    negative zero and the negative infinity. *)
Definition sign_bit (x : float) : bool :=
  match Prim2SF x with
  | S754_zero sg | S754_infinity sg | S754_finite sg _ _ => sg
  | S754_nan => false
  end.

Definition starts_with_minus (s : string) : bool :=
  match s with
  | String c _ => String.eqb (String c EmptyString) "-"
  | EmptyString => false
  end.

Fixpoint no_comma (s : string) : bool :=
  match s with
  | EmptyString => true
  | String c rest =>
      negb (String.eqb (String c EmptyString) ",") && no_comma rest
  end.

(** The exceptions that reading a decoded payload can raise. *)
Definition payload_error (e : exn) : bool :=
  match e with
  | KeyError _ | IndexError | TypeError | AttributeError => true
  | _ => false
  end.


End Effects.

Module Outage.
Import Py Weather.

(** An upstream that cannot be reached. *)
Definition upstream_down (n : nat) (u : url) : reply :=
  Unreachable "timed out".


(** A period whose ["probabilityOfPrecipitation"] is present and null. *)
Definition period_null_container : json_value :=
  JObj [("startTime", JStr "2024-01-01T12:00:00-05:00");
        ("temperature", JInt 44); ("temperatureUnit", JStr "F");
        ("probabilityOfPrecipitation", JNull);
        ("relativeHumidity", JObj [("value", JInt 60)]);
        ("windSpeed", JStr "12 mph"); ("windDirection", JStr "N");
        ("icon", JStr "https://api.weather.gov/icons/land/day/sct");
        ("shortForecast", JStr "Mostly Sunny"); ("isDaytime", JBool true)].

Definition periods_one_bad : list json_value :=
  [Sample.period_1; period_null_container; Sample.period_2].

Definition forecast_body_one_bad : json_value :=
  JObj [("properties", JObj [("periods", JList periods_one_bad)])].

Definition upstream_one_bad_period (n : nat) (u : url) : reply :=
  match u with
  | Url s => if String.eqb s Sample.forecast_url
             then Sample.ok_reply forecast_body_one_bad
             else Sample.upstream n u
  | _ => Sample.upstream n u
  end.

(** A points payload without ["relativeLocation"]. *)
Definition points_body_partial : json_value :=
  JObj [("properties", JObj [
    ("gridId", JStr "OKX"); ("gridX", JInt 33); ("gridY", JInt 35);
    ("forecastHourly", JStr Sample.forecast_url);
    ("observationStations", JStr Sample.stations_url)])].

Definition upstream_partial_points (n : nat) (u : url) : reply :=
  match u with
  | PointsUrl _ _ => Sample.ok_reply points_body_partial
  | _ => Sample.upstream n u
  end.

(** An observation whose temperature is a string. *)
Definition observation_props_text : json_value :=
  JObj [("timestamp", JStr "2024-01-01T14:51:00+00:00");
        ("textDescription", JStr "Cloudy");
        ("temperature", JObj [("value", JStr "2.5")])].

Definition upstream_text_temperature (n : nat) (u : url) : reply :=
  match u with
  | LatestObservationUrl _ =>
      Sample.ok_reply (JObj [("properties", observation_props_text)])
  | _ => Sample.upstream n u
  end.

(** A station list that is [null]. *)
Definition upstream_null_features (n : nat) (u : url) : reply :=
  match u with
  | Url s => if String.eqb s Sample.forecast_url
             then Sample.ok_reply Sample.forecast_body
             else Sample.ok_reply (JObj [("features", JNull)])
  | _ => Sample.upstream n u
  end.

End Outage.

(** ** The application of [main.py] *)

Module Main.









End Main.

(** * Properties *)

Import Num Py Weather.

(** ** Rounding *)

Section Rounding.

Lemma div_round_half_even_near (n d : Z) :
  0 < d -> Z.abs (2 * n - 2 * d * div_round_half_even n d) <= d.
Proof.
  intros Hd. unfold div_round_half_even.
  pose proof (Z.div_mod n d ltac:(lia)) as Hn.
  pose proof (Z.mod_pos_bound n d Hd) as Hr.
  set (q := n / d) in *. set (r := n mod d) in *.
  destruct (2 * r ?= d) eqn:Hc.
  - apply Z.compare_eq in Hc. destruct (Z.even q); nia.
  - rewrite Z.compare_lt_iff in Hc. nia.
  - rewrite Z.compare_gt_iff in Hc. nia.
Qed.

Lemma div_round_half_even_tie (n d k : Z) :
  0 < d -> 2 * n = (2 * k + 1) * d ->
  div_round_half_even n d = if Z.even k then k else k + 1.
Proof.
  intros Hd Hn. unfold div_round_half_even.
  assert (Hq : n / d = k).
  { symmetry. apply (Z.div_unique n d k (n - d * k)); [left; nia | lia]. }
  assert (Hr : n mod d = n - d * k).
  { symmetry. apply (Z.mod_unique n d k (n - d * k)); [left; nia | lia]. }
  rewrite Hq, Hr.
  replace (2 * (n - d * k) ?= d) with Eq; [reflexivity |].
  symmetry. apply Z.compare_eq_iff. nia.
Qed.

Lemma holds_from_spec (p : Z -> bool) (n : nat) :
  forall lo z, holds_from p lo n = true -> lo <= z < lo + Z.of_nat n -> p z = true.
Proof.
  induction n as [| n IH]; intros lo z H Hz; [lia |].
  simpl in H. apply andb_true_iff in H as [H0 H1].
  destruct (Z.eq_dec z lo) as [-> | Hne]; [exact H0 |].
  apply (IH (lo + 1)); [exact H1 | lia].
Qed.

(** [round] breaks a tie towards the even neighbour. *)
Lemma round_tie_even (x : float) (k : Z) :
  (F2Q x == inject_Z k + (1 # 2))%Q ->
  round x = Ok (if Z.even k then k else k + 1).
Proof.
  unfold F2Q, round. destruct (Prim2SF x) as [s0 | s0 | | s m e].
  1-3: unfold Qeq; simpl; lia.
  unfold scaled_round, magnitude. destruct (0 <=? e) eqn:He.
  - destruct s; unfold Qeq; simpl; lia.
  - apply Z.leb_gt in He.
    assert (Hd : 0 < 2 ^ (- e)) by (apply Z.pow_pos_nonneg; lia).
    rewrite Z.mul_1_l.
    destruct s; unfold Qeq; simpl; rewrite Z2Pos.id by exact Hd; intros H.
    + rewrite (div_round_half_even_tie _ _ (- k - 1) Hd) by lia.
      replace (- k - 1) with (- (k + 1)) by lia.
      rewrite Z.even_opp, Z.even_add. simpl.
      destruct (Z.even k); simpl; f_equal; lia.
    + rewrite (div_round_half_even_tie _ _ k Hd) by lia. reflexivity.
Qed.

(** The scaled magnitude is rounded to a nearest integer, a tie to the
    even one. *)
Lemma scaled_round_nearest (k : Z) (m : positive) (e : Z) :
  nearest_integer (scaled_round k m e) (inject_Z k * magnitude m e).
Proof.
  unfold scaled_round, magnitude, nearest_integer.
  destruct (0 <=? e) eqn:He.
  - unfold Qle; simpl; lia.
  - apply Z.leb_gt in He.
    assert (Hd : 0 < 2 ^ (- e)) by (apply Z.pow_pos_nonneg; lia).
    pose proof (div_round_half_even_near (k * Z.pos m) _ Hd) as Hn.
    set (d := 2 ^ (- e)) in *.
    set (q := div_round_half_even (k * Z.pos m) d) in *.
    unfold Qle; simpl.
    rewrite ?Pos.mul_1_l, ?Pos2Z.inj_mul, !Z2Pos.id by exact Hd. nia.
Qed.

Lemma scaled_round_tie (k : Z) (m : positive) (e j : Z) :
  (inject_Z k * magnitude m e == inject_Z j + (1 # 2))%Q ->
  scaled_round k m e = if Z.even j then j else j + 1.
Proof.
  unfold scaled_round, magnitude. destruct (0 <=? e) eqn:He.
  - unfold Qeq; simpl; lia.
  - apply Z.leb_gt in He.
    assert (Hd : 0 < 2 ^ (- e)) by (apply Z.pow_pos_nonneg; lia).
    unfold Qeq; simpl. rewrite ?Pos.mul_1_l, Z2Pos.id by exact Hd. intros H.
    apply div_round_half_even_tie; [exact Hd | lia].
Qed.

(** [round] returns an integer nearest to the exact value of the float. *)
Lemma round_nearest (x : float) (n : Z) :
  round x = Ok n -> nearest_integer n (F2Q x).
Proof.
  unfold F2Q, round, nearest_integer.
  destruct (Prim2SF x) as [s0 | s0 | | s m e]; try discriminate.
  - intros [= <-]. unfold Qle; simpl; lia.
  - intros [= <-]. unfold scaled_round, magnitude.
    destruct (0 <=? e) eqn:He.
    + destruct s; unfold Qle; simpl; lia.
    + apply Z.leb_gt in He.
      assert (Hd : 0 < 2 ^ (- e)) by (apply Z.pow_pos_nonneg; lia).
      rewrite Z.mul_1_l.
      pose proof (div_round_half_even_near (Z.pos m) _ Hd) as Hn.
      set (d := 2 ^ (- e)) in *.
      set (q := div_round_half_even (Z.pos m) d) in *.
      destruct s; unfold Qle; simpl;
        rewrite Pos2Z.inj_mul, Z2Pos.id by exact Hd; nia.
Qed.

Lemma agrees_with_exact_sound (z : Z) :
  SpecWords.agrees_with_exact z = true ->
  celsius_to_fahrenheit (JInt z) = Ok (Some (SpecWords.exact_fahrenheit z)).
Proof.
  unfold SpecWords.agrees_with_exact.
  destruct (celsius_to_fahrenheit (JInt z)) as [[n |] |]; try discriminate.
  intros H. apply Z.eqb_eq in H. now subst.
Qed.

Lemma celsius_to_fahrenheit_none (v : json_value) :
  celsius_to_fahrenheit v = Ok None <-> v = JNull.
Proof.
  split; [| now intros ->].
  destruct v as [| b | z | c | | |]; simpl; try discriminate; try reflexivity.
  - destruct (int_truediv _ 5) as [x |]; simpl; [| discriminate].
    destruct (round _); discriminate.
  - destruct (int_truediv _ 5) as [x |]; simpl; [| discriminate].
    destruct (round _); discriminate.
  - destruct (round _); discriminate.
Qed.

(** C5: [celsius_to_fahrenheit] is [round(celsius * 9 / 5 + 32)] on every
    number and [None] on [None] only.  On a float the result is [round] of
    the float expression, an integer nearest to its value; on an int it is
    [round] of the int product, truly divided and added to 32, which on the
    integers from -10000 to 10000 is the exact quotient [(9 z + 160) / 5]
    rounded half-even; and 0, 100, 20.0 and [None] give 32, 212, 68 and
    [None]. *)
Theorem celsius_to_fahrenheit_rounds :
  (forall c : float,
     celsius_to_fahrenheit (JFloat c)
     = (f ← round ((c * 9) / 5 + 32)%float; Ok (Some f)))
  /\ (forall z : Z,
        celsius_to_fahrenheit (JInt z)
        = (x ← int_truediv (z * 9) 5; f ← round (x + 32)%float; Ok (Some f)))
  /\ (forall (c : float) (n : Z),
        celsius_to_fahrenheit (JFloat c) = Ok (Some n) ->
        nearest_integer n (F2Q ((c * 9) / 5 + 32)%float))
  /\ (forall z : Z, -10000 <= z <= 10000 ->
        celsius_to_fahrenheit (JInt z)
        = Ok (Some (SpecWords.exact_fahrenheit z)))
  /\ (forall v : json_value, celsius_to_fahrenheit v = Ok None <-> v = JNull)
  /\ celsius_to_fahrenheit (JInt 0) = Ok (Some 32)
  /\ celsius_to_fahrenheit (JInt 100) = Ok (Some 212)
  /\ celsius_to_fahrenheit (JFloat 20.0) = Ok (Some 68)
  /\ celsius_to_fahrenheit JNull = Ok None.
Proof.
  split; [reflexivity |].
  split; [reflexivity |].
  split.
  { intros c n. simpl. destruct (round _) as [f |] eqn:Hr; [| discriminate].
    simpl. intros [= <-]. now apply round_nearest. }
  split.
  { intros z Hz. apply agrees_with_exact_sound.
    apply (holds_from_spec _ (Z.to_nat 20001) (-10000)).
    - vm_compute. reflexivity.
    - rewrite Z2Nat.id; lia. }
  split; [exact celsius_to_fahrenheit_none |].
  repeat split; vm_compute; reflexivity.
Qed.

(** C10: a Fahrenheit value that is exactly a half-integer [k + 1/2] is
    rounded to the even one of [k] and [k + 1]; 2.5 gives 36.5 and so 36,
    7.5 gives 45.5 and so 46. *)
Theorem celsius_to_fahrenheit_half_even :
  (forall (c : float) (k : Z),
     (F2Q ((c * 9) / 5 + 32)%float == inject_Z k + (1 # 2))%Q ->
     celsius_to_fahrenheit (JFloat c)
     = Ok (Some (if Z.even k then k else k + 1)))
  /\ ((2.5 * 9) / 5 + 32 = 36.5)%float
  /\ celsius_to_fahrenheit (JFloat 2.5) = Ok (Some 36)
  /\ ((7.5 * 9) / 5 + 32 = 45.5)%float
  /\ celsius_to_fahrenheit (JFloat 7.5) = Ok (Some 46).
Proof.
  split.
  { intros c k H. simpl. now rewrite (round_tie_even _ k H). }
  repeat split; vm_compute; reflexivity.
Qed.

End Rounding.

(** ** The grid-point cache *)

Section WorldProperties.

Variable upstream : nat -> url -> reply.
Variable clock : nat -> float.
Variable utcnow : nat -> string.
Variable str_exn : exn -> string.
Variable parses : url -> bool.

Ltac run :=
  unfold get_grid_point, get_hourly_forecast, current_conditions_body,
    client_get_value, client_get_checked, client_get, time_time, utcnow_isoformat, cache_get,
    cache_set, raise_for_status, response_json, lift, raise,
    mbind, mret, M_bind, M_ret in *;
  cbn beta iota zeta in *.

(** A fresh entry is returned as it is; only the clock was read. *)
Lemma get_grid_point_hit (lat lon : float) (s : State) (e : CacheEntry) :
  grid_point_cache s !! cache_key lat lon = Some e ->
  within_ttl (clock (ticks s)) (timestamp e) = true ->
  get_grid_point upstream clock lat lon s = (Ok (data e), tick s).
Proof.
  intros Hc Hf. run. rewrite Hc. cbn. rewrite Hf. reflexivity.
Qed.

(** Without a fresh entry the call is one GET and what follows from it. *)
Lemma get_grid_point_miss (lat lon : float) (s : State) :
  misses clock lat lon s ->
  get_grid_point upstream clock lat lon s =
  let s1 := checked lat lon s in
  match upstream (length (requests s)) (PointsUrl lat lon) with
  | Unreachable msg => (Raise (RequestError msg), sent (PointsUrl lat lon) s1)
  | Replied r =>
      if is_success r then
        match json r with
        | None => (Raise JSONDecodeError, sent (PointsUrl lat lon) s1)
        | Some body =>
            match props ← getitem body "properties"; grid_point_of_props props with
            | Raise e => (Raise e, sent (PointsUrl lat lon) s1)
            | Ok d =>
                (Ok d,
                 stored (cache_key lat lon)
                   {| data := d; timestamp := clock (ticks s1) |}
                   (tick (sent (PointsUrl lat lon) s1)))
            end
        end
      else (Raise (HTTPStatusError (status_code r) (text r)),
            sent (PointsUrl lat lon) s1)
  end.
Proof.
  unfold misses, checked. intros H. run.
  destruct (grid_point_cache s !! cache_key lat lon) as [e |] eqn:Hc; cbn.
  - rewrite H. cbn. destruct (upstream _ _) as [r | msg]; cbn; [| reflexivity].
    destruct (is_success r); cbn; [| reflexivity].
    destruct (json r) as [body |]; cbn; [| reflexivity].
    destruct (getitem body "properties") as [props |]; cbn; [| reflexivity].
    destruct (grid_point_of_props props) as [d |]; cbn; reflexivity.
  - destruct (upstream _ _) as [r | msg]; cbn; [| reflexivity].
    destruct (is_success r); cbn; [| reflexivity].
    destruct (json r) as [body |]; cbn; [| reflexivity].
    destruct (getitem body "properties") as [props |]; cbn; [| reflexivity].
    destruct (grid_point_of_props props) as [d |]; cbn; reflexivity.
Qed.

Lemma hit_or_miss (lat lon : float) (s : State) :
  (exists e, grid_point_cache s !! cache_key lat lon = Some e
             /\ within_ttl (clock (ticks s)) (timestamp e) = true)
  \/ misses clock lat lon s.
Proof.
  unfold misses.
  destruct (grid_point_cache s !! cache_key lat lon) as [e |]; [| now right].
  destruct (within_ttl (clock (ticks s)) (timestamp e)) eqn:Hf; [left | now right].
  now exists e.
Qed.

Lemma checked_requests (lat lon : float) (s : State) :
  requests (checked lat lon s) = requests s
  /\ grid_point_cache (checked lat lon s) = grid_point_cache s
  /\ (ticks s <= ticks (checked lat lon s))%nat.
Proof.
  unfold checked, tick.
  destruct (grid_point_cache s !! cache_key lat lon); cbn; auto.
Qed.

(** What a call that goes upstream leaves behind. *)
Lemma get_grid_point_miss_inv (lat lon : float) (s : State) :
  misses clock lat lon s ->
  exists r s',
    get_grid_point upstream clock lat lon s = (r, s')
    /\ requests s' = PointsUrl lat lon :: requests s
    /\ (forall d, r = Ok d ->
          exists n, (ticks s <= n)%nat /\ ticks s' = S n
            /\ grid_point_cache s'
               = <[cache_key lat lon := {| data := d; timestamp := clock n |}]>
                   (grid_point_cache s))
    /\ (forall e, r = Raise e -> grid_point_cache s' = grid_point_cache s).
Proof.
  intros Hm. rewrite (get_grid_point_miss lat lon s Hm). cbn zeta.
  destruct (checked_requests lat lon s) as (Hreq & Hcache & Hticks).
  destruct (upstream _ _) as [r | msg].
  2: { eexists _, _. split; [reflexivity |]. unfold sent, stored, tick; cbn.
       rewrite ?Hreq, ?Hcache.
       repeat split; try discriminate; auto. }
  destruct (is_success r).
  2: { eexists _, _. split; [reflexivity |]. unfold sent, stored, tick; cbn.
       rewrite ?Hreq, ?Hcache.
       repeat split; try discriminate; auto. }
  destruct (json r) as [body |].
  2: { eexists _, _. split; [reflexivity |]. unfold sent, stored, tick; cbn.
       rewrite ?Hreq, ?Hcache.
       repeat split; try discriminate; auto. }
  destruct (_ ≫= _) as [d | e].
  2: { eexists _, _. split; [reflexivity |]. unfold sent, stored, tick; cbn.
       rewrite ?Hreq, ?Hcache.
       repeat split; try discriminate; auto. }
  eexists _, _. split; [reflexivity |]. unfold sent, stored, tick; cbn.
       rewrite ?Hreq, ?Hcache.
  repeat split; try discriminate.
  intros d' [= <-]. exists (ticks (checked lat lon s)). auto.
Qed.

Lemma misses_iff (lat lon : float) (s : State) :
  misses clock lat lon s <->
  (grid_point_cache s !! cache_key lat lon = None
   \/ exists e, grid_point_cache s !! cache_key lat lon = Some e
               /\ within_ttl (clock (ticks s)) (timestamp e) = false).
Proof.
  unfold misses.
  destruct (grid_point_cache s !! cache_key lat lon) as [e |]; split.
  - intros H. right. now exists e.
  - intros [H | (e' & [= <-] & H)]; [discriminate | exact H].
  - now left.
  - trivial.
Qed.

(** One call sends nothing or exactly the points request. *)
Lemma get_grid_point_requests (lat lon : float) (s : State) :
  requests (snd (get_grid_point upstream clock lat lon s)) = requests s
  \/ requests (snd (get_grid_point upstream clock lat lon s))
     = PointsUrl lat lon :: requests s.
Proof.
  destruct (hit_or_miss lat lon s) as [(e & Hc & Hf) | Hm].
  - left. now rewrite (get_grid_point_hit lat lon s e Hc Hf).
  - right. destruct (get_grid_point_miss_inv lat lon s Hm) as (r & s' & -> & H & _).
    exact H.
Qed.

(** C1: an entry for the key that is less than 24 hours old is returned
    without any GET (only the clock is read); and of two calls for the same
    coordinates, the first returning and the second reading the clock less
    than 24 hours after the first last read it, at most one sends the
    points request: whenever the first one sent it, the second returns the
    same grid point from the cache. *)
Theorem cached_grid_point_needs_no_fetch (lat lon : float) :
  (forall (s : State) (e : CacheEntry),
     grid_point_cache s !! cache_key lat lon = Some e ->
     within_ttl (clock (ticks s)) (timestamp e) = true ->
     get_grid_point upstream clock lat lon s = (Ok (data e), tick s)
     /\ requests (tick s) = requests s)
  /\ (forall (s0 s1 : State) (g1 : GridPoint),
        get_grid_point upstream clock lat lon s0 = (Ok g1, s1) ->
        within_ttl (clock (ticks s1)) (clock (pred (ticks s1))) = true ->
        exists r2 s2,
          get_grid_point upstream clock lat lon s1 = (r2, s2)
          /\ (length (requests s2) <= S (length (requests s0)))%nat
          /\ (requests s1 <> requests s0 ->
              r2 = Ok g1 /\ requests s2 = requests s1
              /\ grid_point_cache s2 = grid_point_cache s1)).
Proof.
  split.
  { intros s e Hc Hf. split; [now apply get_grid_point_hit | reflexivity]. }
  intros s0 s1 g1 H1 Hnear.
  destruct (hit_or_miss lat lon s0) as [(e & Hc & Hf) | Hm].
  - rewrite (get_grid_point_hit lat lon s0 e Hc Hf) in H1.
    injection H1 as <- <-.
    destruct (get_grid_point upstream clock lat lon (tick s0)) as [r2 s2] eqn:H2.
    exists r2, s2. split; [reflexivity |]. split; [| now intros []].
    pose proof (get_grid_point_requests lat lon (tick s0)) as Hr.
    rewrite H2 in Hr. cbn in Hr.
    destruct Hr as [-> | ->]; unfold tick; cbn; lia.
  - destruct (get_grid_point_miss_inv lat lon s0 Hm) as (r & s' & Heq & Hreq & Hok & _).
    rewrite Heq in H1. injection H1 as -> ->.
    destruct (Hok g1 eq_refl) as (n & _ & Hn & Hcache).
    rewrite Hn in Hnear. cbn in Hnear.
    assert (Hc : grid_point_cache s1 !! cache_key lat lon
                 = Some {| data := g1; timestamp := clock n |}).
    { rewrite Hcache. apply lookup_insert_eq. }
    rewrite Hn in *.
    pose proof (get_grid_point_hit lat lon s1 _ Hc) as Hhit.
    rewrite Hn in Hhit. cbn in Hhit. specialize (Hhit Hnear).
    exists (Ok g1), (tick s1). split; [exact Hhit |].
    unfold tick; cbn. rewrite Hreq. cbn. split; [lia | auto].
Qed.

(** C6: when the entry for the key is absent or not less than 24 hours old,
    the call sends exactly one GET, the points request; when that request
    succeeds (a 2xx reply whose payload holds the grid point) the call
    returns the fetched grid point and the cache is the old one with the
    entry of the key replaced by the fetched grid point and the reading of
    the clock taken after the fetch, whatever was there before; when the
    call raises, the cache is left as it was. *)
Theorem stale_or_absent_entry_is_refetched (lat lon : float) (s : State) :
  (grid_point_cache s !! cache_key lat lon = None
   \/ exists e, grid_point_cache s !! cache_key lat lon = Some e
               /\ within_ttl (clock (ticks s)) (timestamp e) = false) ->
  exists r s',
    get_grid_point upstream clock lat lon s = (r, s')
    /\ requests s' = PointsUrl lat lon :: requests s
    /\ (forall resp body props d,
          upstream (length (requests s)) (PointsUrl lat lon) = Replied resp ->
          is_success resp = true ->
          json resp = Some body ->
          getitem body "properties" = Ok props ->
          grid_point_of_props props = Ok d ->
          r = Ok d)
    /\ (forall d, r = Ok d ->
          exists n, (ticks s <= n)%nat /\ ticks s' = S n
            /\ grid_point_cache s'
               = <[cache_key lat lon := {| data := d; timestamp := clock n |}]>
                   (grid_point_cache s)
            /\ grid_point_cache s' !! cache_key lat lon
               = Some {| data := d; timestamp := clock n |})
    /\ (forall e, r = Raise e -> grid_point_cache s' = grid_point_cache s).
Proof.
  intros Hm. apply misses_iff in Hm.
  destruct (get_grid_point_miss_inv lat lon s Hm) as (r & s' & Heq & Hreq & Hok & Hraise).
  exists r, s'. split; [exact Heq |]. split; [exact Hreq |].
  split; [| split; [| exact Hraise]].
  - intros resp body props d Hup Hs Hj Hp Hd.
    rewrite (get_grid_point_miss lat lon s Hm) in Heq. cbn zeta in Heq.
    rewrite Hup, Hs, Hj, Hp in Heq. cbn in Heq. rewrite Hd in Heq.
    now injection Heq as <- _.
  - intros d Hd. destruct (Hok d Hd) as (n & Hle & Hn & Hcache).
    exists n. repeat split; try assumption.
    rewrite Hcache. apply lookup_insert_eq.
Qed.

(** C7, as amended: the key is ["<lat>,<lon>"] with each coordinate written
    by [".4f"], that is rounded (not cut off) to a nearest multiple of
    0.0001, a tie going to the even one; the coordinates (40.71290,
    -74.00590) and (40.712904, -74.005901) give the same key, so that a
    fresh entry stored for the first is returned for the second without a
    GET. *)
Theorem cache_key_rounds_to_four_decimals :
  (forall lat lon : float,
     cache_key lat lon = format_4f lat +:+ "," +:+ format_4f lon)
  /\ (forall (x : float) (s : bool) (m : positive) (e : Z),
        Prim2SF x = S754_finite s m e ->
        F2Q x = (if s then - magnitude m e else magnitude m e)%Q
        /\ exists n : Z,
            nearest_integer n (inject_Z 10000 * magnitude m e)
            /\ (forall j : Z,
                  (inject_Z 10000 * magnitude m e == inject_Z j + (1 # 2))%Q ->
                  n = if Z.even j then j else j + 1)
            /\ format_4f x
               = (if s then "-" else "") +:+ decimal (n / 10000) +:+ "."
                 +:+ decimal (n / 1000 mod 10) +:+ decimal (n / 100 mod 10)
                 +:+ decimal (n / 10 mod 10) +:+ decimal (n mod 10))
  /\ cache_key 40.71290 (-74.00590) = "40.7129,-74.0059"
  /\ cache_key 40.712904 (-74.005901) = "40.7129,-74.0059"
  /\ (forall (s : State) (e : CacheEntry),
        grid_point_cache s !! cache_key 40.71290 (-74.00590) = Some e ->
        within_ttl (clock (ticks s)) (timestamp e) = true ->
        get_grid_point upstream clock 40.712904 (-74.005901) s
        = (Ok (data e), tick s)
        /\ requests (tick s) = requests s).
Proof.
  split; [reflexivity |].
  split.
  { intros x s m e Hx. split; [unfold F2Q; now rewrite Hx |].
    exists (scaled_round 10000 m e).
    split; [apply scaled_round_nearest |].
    split; [intros j Hj; now apply scaled_round_tie |].
    unfold format_4f. now rewrite Hx. }
  split; [vm_compute; reflexivity |].
  split; [vm_compute; reflexivity |].
  intros s e Hc Hf. split; [| reflexivity].
  apply get_grid_point_hit; [| exact Hf].
  replace (cache_key 40.712904 (-74.005901)) with (cache_key 40.71290 (-74.00590));
    [exact Hc | vm_compute; reflexivity].
Qed.

(** ** Validation and upstream failures *)

Lemma SFleb_negb_SFltb (a b : spec_float) :
  a <> S754_nan -> b <> S754_nan -> SFleb b a = negb (SFltb a b).
Proof.
  unfold SFltb, SFleb, SFcompare. intros Ha Hb.
  destruct a as [sa | sa | | sa ma ea], b as [sb | sb | | sb mb eb];
    try congruence;
    try destruct sa; try destruct sb; try reflexivity.
  - rewrite (Z.compare_antisym ea eb).
    destruct (ea ?= eb); simpl; try reflexivity.
    pose proof (Pos.compare_cont_antisym ma mb Eq) as H. simpl in H.
    rewrite <- H. now destruct (Pos.compare_cont Eq ma mb).
  - rewrite (Z.compare_antisym ea eb).
    destruct (ea ?= eb); simpl; try reflexivity.
    pose proof (Pos.compare_cont_antisym ma mb Eq) as H. simpl in H.
    rewrite <- H. now destruct (Pos.compare_cont Eq ma mb).
Qed.

Lemma Prim2SF_not_nan (x : float) : is_nan x = false -> Prim2SF x <> S754_nan.
Proof.
  unfold Prim2SF. intros ->.
  destruct (is_zero x); [discriminate |].
  destruct (is_infinity x); [discriminate |].
  destruct (Z.frexp x) as [r ex].
  destruct (shr_fexp _ _ _ _ _) as [shr e'].
  destruct (shr_m shr); discriminate.
Qed.

(** The [Query] constraints accept exactly the values that are not outside
    the interval. *)
Lemma Query_ge_le_outside (lo hi v : float) :
  is_nan lo = false -> is_nan hi = false ->
  Query_ge_le lo hi v = negb (outside lo hi v).
Proof.
  intros Hlo Hhi. unfold outside, Query_ge_le.
  destruct (is_nan v) eqn:Hv.
  - rewrite !orb_true_r. simpl. rewrite leb_spec.
    unfold Prim2SF at 2. rewrite Hv.
    unfold SFleb, SFcompare. now destruct (Prim2SF lo).
  - rewrite orb_false_r, negb_orb, !leb_spec, !ltb_spec.
    rewrite (SFleb_negb_SFltb (Prim2SF v) (Prim2SF lo)),
            (SFleb_negb_SFltb (Prim2SF hi) (Prim2SF v));
      auto using Prim2SF_not_nan.
Qed.

Lemma run_bind {A B} (c : M A) (f : A -> M B) (s : State) :
  (c ≫= f) s = match c s with
               | (Ok a, s') => f a s'
               | (Raise e, s') => (Raise e, s')
               end.
Proof. reflexivity. Qed.

Lemma not_success (r : Response) :
  status_code r < 200 \/ 299 < status_code r -> is_success r = false.
Proof. unfold is_success. lia. Qed.

(** C3, as amended: a latitude outside [-90, 90] or a longitude outside
    [-180, 180] (not a number included) is refused by the validation of
    the query parameters, whose answer has status 422; the handler is not
    entered: the state is unchanged and no GET has been sent. *)
Theorem invalid_coordinates_are_rejected (lat lon : float) (s : State) :
  outside (-90) 90 lat = true \/ outside (-180) 180 lon = true ->
  forecast_route upstream clock utcnow str_exn parses lat lon s
  = (RequestValidationError, s)
  /\ status_of (fst (forecast_route upstream clock utcnow str_exn parses lat lon s))
     = 422
  /\ requests (snd (forecast_route upstream clock utcnow str_exn parses lat lon s))
     = requests s.
Proof.
  intros H.
  assert (Hv : Query_ge_le (-90) 90 lat && Query_ge_le (-180) 180 lon = false).
  { rewrite !Query_ge_le_outside by reflexivity.
    destruct H as [-> | ->]; [reflexivity | apply andb_false_r]. }
  unfold forecast_route. rewrite Hv. auto.
Qed.

(** Coordinates inside both ranges do enter the handler. *)
Lemma valid_coordinates_enter_handler (lat lon : float) (s : State) :
  outside (-90) 90 lat = false -> outside (-180) 180 lon = false ->
  exists r s',
    get_forecast upstream clock utcnow str_exn parses lat lon s = (r, s')
    /\ forecast_route upstream clock utcnow str_exn parses lat lon s
       = (match r with
          | Ok body => Success body
          | Raise (HTTPException st d) => Failure st d
          | Raise _ => Failure 500 "Internal Server Error"
          end, s').
Proof.
  intros Hlat Hlon. unfold forecast_route.
  rewrite !Query_ge_le_outside by reflexivity. rewrite Hlat, Hlon. cbn.
  destruct (get_forecast upstream clock utcnow str_exn parses lat lon s)
    as [[body | e] s'].
  - now exists (Ok body), s'.
  - exists (Raise e), s'. split; [reflexivity |]. now destruct e.
Qed.

(** C4: when the points request or the hourly-forecast request is answered
    with a status outside 200..299, [get_forecast] raises an
    [HTTPException] whose status is that status and whose detail ends with
    the text of the upstream body; the route answers with them. *)
Theorem upstream_status_is_propagated
  (lat lon : float) (s : State) (resp : Response) :
  (misses clock lat lon s
   /\ upstream (length (requests s)) (PointsUrl lat lon) = Replied resp)
  \/ (exists (g : GridPoint) (s1 : State) (u : string),
        get_grid_point upstream clock lat lon s = (Ok g, s1)
        /\ forecastHourly g = JStr u
        /\ parses (Url u) = true
        /\ upstream (length (requests s1)) (Url u) = Replied resp) ->
  status_code resp < 200 \/ 299 < status_code resp ->
  fst (get_forecast upstream clock utcnow str_exn parses lat lon s)
  = Raise (HTTPException (status_code resp)
             ("Weather API error: " +:+ text resp))
  /\ (Query_ge_le (-90) 90 lat && Query_ge_le (-180) 180 lon = true ->
      fst (forecast_route upstream clock utcnow str_exn parses lat lon s)
      = Failure (status_code resp) ("Weather API error: " +:+ text resp)).
Proof.
  intros H Hst. apply not_success in Hst.
  assert (Hf : fst (get_forecast upstream clock utcnow str_exn parses lat lon s)
               = Raise (HTTPException (status_code resp)
                          ("Weather API error: " +:+ text resp))).
  { unfold get_forecast, try_except, forecast_body. rewrite run_bind.
    destruct H as [[Hm Hup] | (g & s1 & u & Hg & Hu & Hpa & Hup)].
    - rewrite (get_grid_point_miss lat lon s Hm). cbn zeta.
      rewrite Hup, Hst. reflexivity.
    - rewrite Hg, run_bind, Hu.
      unfold get_hourly_forecast. rewrite run_bind.
      unfold client_get_value, client_get_checked, client_get.
      rewrite Hpa, Hup.
      rewrite run_bind. unfold raise_for_status. rewrite Hst. reflexivity. }
  split; [exact Hf |].
  intros Hv. unfold forecast_route. rewrite Hv.
  destruct (get_forecast upstream clock utcnow str_exn parses lat lon s) as [r s'].
  cbn in Hf. now rewrite Hf.
Qed.

(** ** The hourly forecast *)

Lemma comprehension_Forall2 {A B} (f : A -> result B) (xs : list A) :
  forall l, comprehension f xs = Ok l -> Forall2 (fun x y => f x = Ok y) xs l.
Proof.
  induction xs as [| x xs IH]; simpl; intros l H.
  - injection H as <-. constructor.
  - destruct (f x) as [y |] eqn:Hx; simpl in H; [| discriminate].
    destruct (comprehension f xs) as [ys |]; simpl in H; [| discriminate].
    injection H as <-. constructor; [exact Hx | now apply IH].
Qed.

Lemma comprehension_map {A B} (f : A -> result B) (g : A -> B) (xs : list A) :
  Forall (fun x => f x = Ok (g x)) xs -> comprehension f xs = Ok (map g xs).
Proof.
  induction 1 as [| x xs Hx _ IH]; simpl; [reflexivity |].
  now rewrite Hx, IH.
Qed.

Lemma comprehension_shape {A B} (f : A -> result B) (g : A -> B) (xs : list A) :
  (forall x y, f x = Ok y -> y = g x) ->
  forall l, comprehension f xs = Ok l -> l = map g xs.
Proof.
  intros Hg l Hl. apply comprehension_Forall2 in Hl.
  induction Hl as [| x y xs l Hx _ IH]; [reflexivity |].
  simpl. now rewrite IH, (Hg x y Hx).
Qed.

Ltac lookup_cases :=
  repeat match goal with
    | H : context [dict_lookup ?k ?items] |- _ =>
        let v := fresh "v" in
        destruct (dict_lookup k items) as [v |]; simpl in H;
        try discriminate H
    | H : context [match ?v with JObj _ => _ | _ => _ end] |- _ =>
        is_var v; destruct v; simpl in H; try discriminate H
    end.

Lemma forecast_period_shape (p : json_value) (fp : ForecastPeriod) :
  forecast_period p = Ok fp -> fp = SpecWords.period_shape p.
Proof.
  unfold forecast_period, nested_value, getitem, get, SpecWords.period_shape,
    SpecWords.field, SpecWords.optional_value.
  destruct p as [| | | | | | items]; simpl; try discriminate.
  intros H. lookup_cases; now injection H as <-.
Qed.

Lemma well_formed_period_ok (p : json_value) :
  SpecWords.well_formed_period p = true ->
  forecast_period p = Ok (SpecWords.period_shape p).
Proof.
  unfold SpecWords.well_formed_period, SpecWords.has_key,
    SpecWords.optional_container.
  destruct p as [| | | | | | items]; try discriminate.
  rewrite !andb_true_iff. intros H.
  unfold forecast_period, nested_value, getitem, get, SpecWords.period_shape,
    SpecWords.field, SpecWords.optional_value.
  repeat match type of H with _ /\ _ => destruct H as [H ?] end.
  lookup_cases; simpl; lookup_cases; try reflexivity;
    repeat match goal with
      | |- context [dict_lookup ?k ?c] => destruct (dict_lookup k c); simpl
      end; reflexivity.
Qed.

(** C8: on a 2xx reply whose payload has the list [periods] under
    ["properties"]["periods"], every list [get_hourly_forecast] returns
    holds the transformed periods one for one in upstream order; each
    transformed period has the ForecastPeriod shape, its
    [precipitationChance] and [relativeHumidity] being the nested value, or
    null when the value or its container is absent; and when every period
    is well formed the call does return, with the list of the shapes of
    the periods. *)
Theorem hourly_forecast_keeps_every_period
  (u : string) (s : State) (resp : Response) (body props : json_value)
  (periods : list json_value) :
  parses (Url u) = true ->
  upstream (length (requests s)) (Url u) = Replied resp ->
  is_success resp = true ->
  json resp = Some body ->
  getitem body "properties" = Ok props ->
  getitem props "periods" = Ok (JList periods) ->
  (forall l : list ForecastPeriod,
     fst (get_hourly_forecast upstream parses (JStr u) s) = Ok l ->
     Forall2 (fun p fp => forecast_period p = Ok fp) periods l
     /\ length l = length periods
     /\ l = map SpecWords.period_shape periods)
  /\ (forall (p : json_value) (fp : ForecastPeriod),
        forecast_period p = Ok fp ->
        precipitationChance fp
        = SpecWords.optional_value p "probabilityOfPrecipitation"
        /\ relativeHumidity fp = SpecWords.optional_value p "relativeHumidity")
  /\ (Forall (fun p => SpecWords.well_formed_period p = true) periods ->
      get_hourly_forecast upstream parses (JStr u) s
      = (Ok (map SpecWords.period_shape periods), sent (Url u) s)).
Proof.
  intros Hpa Hup Hs Hj Hp Hps.
  assert (Hrun : get_hourly_forecast upstream parses (JStr u) s
                 = (comprehension forecast_period periods, sent (Url u) s)).
  { run. rewrite Hpa, Hup. cbn. rewrite Hs. cbn. rewrite Hj. cbn.
    rewrite Hp, Hps. reflexivity. }
  split; [| split].
  - intros l Hl. rewrite Hrun in Hl. cbn in Hl.
    pose proof (comprehension_Forall2 _ _ _ Hl) as HF.
    split; [exact HF |]. split.
    + symmetry. exact (Forall2_length _ _ _ HF).
    + apply (comprehension_shape forecast_period); [| exact Hl].
      exact forecast_period_shape.
  - intros p fp Hfp. now rewrite (forecast_period_shape p fp Hfp).
  - intros Hwf. rewrite Hrun. f_equal.
    apply comprehension_map.
    eapply Forall_impl; [exact Hwf |]. intros p. apply well_formed_period_ok.
Qed.

(** ** Current conditions *)

Lemma conditions_of_props_inv (props : json_value) (cc : CurrentConditions) :
  conditions_of_props props = Ok cc ->
  exists d i : json_value,
    get props "textDescription" JNull = Ok d
    /\ get props "icon" JNull = Ok i
    /\ cc_description cc = or_else d (JStr "N/A")
    /\ cc_icon cc = or_else i (JStr "").
Proof.
  unfold conditions_of_props, mbind, result_bind. intros H.
  destruct (nested_value props "temperature"); [| discriminate].
  destruct (celsius_to_fahrenheit _); [| discriminate].
  destruct (get props "timestamp" JNull); [| discriminate].
  destruct (get props "textDescription" JNull) as [d |]; [| discriminate].
  destruct (get props "icon" JNull) as [i |]; [| discriminate].
  destruct (nested_value props "relativeHumidity"); [| discriminate].
  destruct (nested_value props "windSpeed"); [| discriminate].
  destruct (nested_value props "windDirection"); [| discriminate].
  destruct (nested_value props "barometricPressure"); [| discriminate].
  injection H as <-. exists d, i. auto.
Qed.

(** A returned observation comes from the second GET of the call. *)
Lemma current_conditions_inv
  (stations_url : json_value) (s s' : State) (cc : CurrentConditions) :
  get_current_conditions upstream parses stations_url s = (Ok (Some cc), s') ->
  exists (station_id : json_value) (resp : Response) (obs props : json_value),
    upstream (S (length (requests s))) (LatestObservationUrl station_id)
    = Replied resp
    /\ json resp = Some obs
    /\ getitem obs "properties" = Ok props
    /\ conditions_of_props props = Ok cc.
Proof.
  unfold get_current_conditions, try_except. intros H.
  destruct (current_conditions_body upstream parses stations_url s) as [[r |] s1] eqn:Hb;
    [| discriminate].
  injection H as -> ->. run.
  destruct stations_url as [| | | | u | |]; try discriminate.
  destruct (parses (Url u)); [| discriminate].
  destruct (upstream (length (requests s)) (Url u)) as [r1 | ?]; [| discriminate].
  cbn in Hb. destruct (is_success r1); cbn in Hb; [| discriminate].
  destruct (json r1) as [b1 |]; cbn in Hb; [| discriminate].
  destruct (getitem b1 "features") as [stations |]; cbn in Hb; [| discriminate].
  destruct (truthy stations); cbn in Hb; [| discriminate].
  destruct (getitem0 stations) as [first |]; cbn in Hb; [| discriminate].
  destruct (getitem first "id") as [station_id |]; cbn in Hb; [| discriminate].
  destruct (parses (LatestObservationUrl station_id)); [| discriminate].
  unfold sent in Hb at 1. cbn [requests length] in Hb.
  destruct (upstream _ (LatestObservationUrl station_id)) as [r2 |] eqn:Hup;
    [| discriminate].
  cbn in Hb. destruct (is_success r2); cbn in Hb; [| discriminate].
  destruct (json r2) as [obs |] eqn:Hj; cbn in Hb; [| discriminate].
  destruct (getitem obs "properties") as [props |] eqn:Hp; cbn in Hb; [| discriminate].
  destruct (conditions_of_props props) as [cc' |] eqn:Hc; cbn in Hb; [| discriminate].
  injection Hb as -> _. now exists station_id, r2, obs, props.
Qed.

(** C9: in a returned observation the description is the upstream
    ["textDescription"] when that is truthy and ["N/A"] otherwise, the icon
    the upstream ["icon"] when truthy and [""] otherwise; so a present and
    empty description comes back as ["N/A"], and a present and empty icon
    as [""]. *)
Theorem empty_description_defaults_to_NA
  (stations_url : json_value) (s s' : State) (cc : CurrentConditions) :
  get_current_conditions upstream parses stations_url s = (Ok (Some cc), s') ->
  exists (station_id : json_value) (resp : Response) (obs props : json_value),
    upstream (S (length (requests s))) (LatestObservationUrl station_id)
    = Replied resp
    /\ json resp = Some obs
    /\ getitem obs "properties" = Ok props
    /\ (forall d, get props "textDescription" JNull = Ok d ->
          cc_description cc = if truthy d then d else JStr "N/A")
    /\ (get props "textDescription" JNull = Ok (JStr "") ->
        cc_description cc = JStr "N/A")
    /\ (forall i, get props "icon" JNull = Ok i ->
          cc_icon cc = if truthy i then i else JStr "")
    /\ (get props "icon" JNull = Ok (JStr "") -> cc_icon cc = JStr "").
Proof.
  intros H.
  destruct (current_conditions_inv _ _ _ _ H)
    as (station_id & resp & obs & props & Hup & Hj & Hp & Hc).
  destruct (conditions_of_props_inv _ _ Hc) as (d & i & Hd & Hi & Hcd & Hci).
  exists station_id, resp, obs, props.
  repeat split; try assumption.
  - intros d' Hd'. rewrite Hd in Hd'. injection Hd' as <-. exact Hcd.
  - intros Hd'. rewrite Hd in Hd'. injection Hd' as ->. exact Hcd.
  - intros i' Hi'. rewrite Hi in Hi'. injection Hi' as <-. exact Hci.
  - intros Hi'. rewrite Hi in Hi'. injection Hi' as ->. exact Hci.
Qed.

(** C2: [get_current_conditions] returns in every state and for every
    upstream; whenever the body of its [try] raises it returns [None], in
    particular when the stations request fails to connect, is answered
    outside 2xx, has a body that does not decode or lacks ["features"],
    and it returns [None] when the station list is empty; and once the grid
    point and the hourly forecast are there, [get_forecast] returns the
    forecast with that hourly list, whatever the current conditions. *)
Theorem current_conditions_never_raise :
  (forall (stations_url : json_value) (s : State),
     exists r s', get_current_conditions upstream parses stations_url s = (Ok r, s'))
  /\ (forall (stations_url : json_value) (s : State) (e : exn),
        fst (current_conditions_body upstream parses stations_url s) = Raise e ->
        fst (get_current_conditions upstream parses stations_url s) = Ok None)
  /\ (forall (u : string) (s : State),
        parses (Url u) = false
        \/ (exists msg,
              upstream (length (requests s)) (Url u) = Unreachable msg)
        \/ (exists resp,
              upstream (length (requests s)) (Url u) = Replied resp
              /\ (is_success resp = false \/ json resp = None
                  \/ exists body, json resp = Some body
                       /\ (is_ok (getitem body "features") = false
                           \/ getitem body "features" = Ok (JList [])))) ->
        fst (get_current_conditions upstream parses (JStr u) s) = Ok None)
  /\ (forall (lat lon : float) (s s1 s2 : State) (g : GridPoint)
             (h : list ForecastPeriod),
        get_grid_point upstream clock lat lon s = (Ok g, s1) ->
        get_hourly_forecast upstream parses (forecastHourly g) s1 = (Ok h, s2) ->
        exists resp s3,
          get_forecast upstream clock utcnow str_exn parses lat lon s = (Ok resp, s3)
          /\ hourlyForecast resp = h
          /\ fst (get_current_conditions upstream parses (observationStations g) s2)
             = Ok (currentConditions resp)).
Proof.
  split; [| split; [| split]].
  - intros url0 s. unfold get_current_conditions, try_except.
    destruct (current_conditions_body upstream parses url0 s) as [[r | e] s'].
    + now exists r, s'.
    + now exists None, s'.
  - intros url0 s e. unfold get_current_conditions, try_except.
    destruct (current_conditions_body upstream parses url0 s) as [[r | e'] s'];
      [discriminate | reflexivity].
  - intros u s. unfold get_current_conditions, try_except. run.
    intros [Hpa | [(msg & Hup) | (resp & Hup & H)]].
    { now rewrite Hpa. }
    { destruct (parses (Url u)); [| reflexivity]. now rewrite Hup. }
    destruct (parses (Url u)); [| reflexivity]. rewrite Hup. cbn.
    destruct H as [H | [H | (body & Hj & [H | H])]].
    + now rewrite H.
    + destruct (is_success resp); cbn; [| reflexivity]. now rewrite H.
    + destruct (is_success resp); cbn; [| reflexivity]. rewrite Hj. cbn.
      destruct (getitem body "features"); [discriminate | reflexivity].
    + destruct (is_success resp); cbn; [| reflexivity]. rewrite Hj. cbn.
      now rewrite H.
  - intros lat lon s s1 s2 g h Hg Hh.
    unfold get_forecast, try_except, forecast_body.
    rewrite run_bind, Hg, run_bind, Hh, run_bind.
    unfold get_current_conditions at 1, try_except.
    unfold get_current_conditions, try_except.
    destruct (current_conditions_body upstream parses (observationStations g) s2)
      as [[r | e] s3]; eexists _, _; cbn; eauto.
Qed.

End WorldProperties.

(** The key is not the truncation of the coordinates: 40.71296 is written
    40.7130, where cutting it off gives 40.7129; 40.71294 and 40.71296,
    equal when cut off after four decimals, get different keys; and the two
    pairs of the example, whose key is the same, differ when cut off (the
    float 40.7129 lies just below its decimal). *)
Lemma cache_key_is_not_truncated :
  cache_key 40.71296 (-74.5) = "40.7130,-74.5000"
  /\ SpecWords.truncated_key 40.71296 (-74.5) = "40.7129,-74.5000"
  /\ cache_key 40.71296 (-74.5) <> SpecWords.truncated_key 40.71296 (-74.5)
  /\ SpecWords.truncated_key 40.71294 (-74.5)
     = SpecWords.truncated_key 40.71296 (-74.5)
  /\ cache_key 40.71294 (-74.5) <> cache_key 40.71296 (-74.5)
  /\ SpecWords.truncated_key 40.71290 (-74.00590) = "40.7128,-74.0058"
  /\ SpecWords.truncated_key 40.712904 (-74.005901) = "40.7129,-74.0059".
Proof.
  split; [vm_compute; reflexivity |].
  split; [vm_compute; reflexivity |].
  split; [intros H; vm_compute in H; discriminate H |].
  split; [vm_compute; reflexivity |].
  split; [intros H; vm_compute in H; discriminate H |].
  split; vm_compute; reflexivity.
Qed.

(** A latitude of 91 is answered with 422, not 400. *)
Lemma validation_failure_is_not_400 :
  outside (-90) 90 91 = true
  /\ status_of (fst (forecast_route Sample.upstream Sample.clock Sample.utcnow
                       Sample.str_exn Sample.parses 91 0 Sample.state0)) = 422
  /\ status_of (fst (forecast_route Sample.upstream Sample.clock Sample.utcnow
                       Sample.str_exn Sample.parses 91 0 Sample.state0)) <> 400.
Proof.
  split; [vm_compute; reflexivity |].
  split; [vm_compute; reflexivity |].
  intros H; vm_compute in H; discriminate H.
Qed.

(** ** The properties on the sample upstream *)

(** Two calls for New York from an empty cache: the second one is served
    from the entry the first one stored. *)
Lemma second_call_is_served_from_cache :
  let s1 := snd (get_grid_point Sample.upstream Sample.clock
                   40.7129 (-74.0059) Sample.state0) in
  exists r2 s2,
    get_grid_point Sample.upstream Sample.clock 40.7129 (-74.0059) s1 = (r2, s2)
    /\ (length (requests s2) <= 1)%nat
    /\ r2 = Ok Sample.new_york.
Proof.
  cbv zeta.
  destruct (cached_grid_point_needs_no_fetch Sample.upstream Sample.clock
              40.7129 (-74.0059)) as [_ H].
  destruct (H Sample.state0
              (snd (get_grid_point Sample.upstream Sample.clock
                      40.7129 (-74.0059) Sample.state0))
              Sample.new_york)
    as (r2 & s2 & H2 & Hlen & Hsame).
  - vm_compute. reflexivity.
  - vm_compute. reflexivity.
  - exists r2, s2. split; [exact H2 |]. split; [exact Hlen |].
    apply Hsame. intros Heq. vm_compute in Heq. discriminate Heq.
Defined.

Lemma stale_entry_is_refetched :
  exists r s',
    get_grid_point Sample.upstream Sample.clock 40.7129 (-74.0059)
      Sample.state_stale = (r, s')
    /\ requests s' = [PointsUrl 40.7129 (-74.0059)]
    /\ r = Ok Sample.new_york.
Proof.
  destruct (stale_or_absent_entry_is_refetched Sample.upstream Sample.clock
              40.7129 (-74.0059) Sample.state_stale)
    as (r & s' & Heq & Hreq & Hsucc & _).
  - right. exists {| data := Sample.new_york; timestamp := 1600000000 |}.
    split; vm_compute; reflexivity.
  - exists r, s'. split; [exact Heq |]. split; [exact Hreq |].
    apply (Hsucc (Build_Response 200 "{...}" (Some Sample.points_body))
             Sample.points_body
             (JObj [("gridId", JStr "OKX"); ("gridX", JInt 33); ("gridY", JInt 35);
                    ("forecastHourly", JStr Sample.forecast_url);
                    ("observationStations", JStr Sample.stations_url);
                    ("relativeLocation", JObj [("properties", JObj [
                       ("city", JStr "New York"); ("state", JStr "NY")])])]));
      vm_compute; reflexivity.
Defined.

Lemma latitude_91_is_rejected :
  forecast_route Sample.upstream Sample.clock Sample.utcnow Sample.str_exn Sample.parses
    91 0 Sample.state0 = (RequestValidationError, Sample.state0).
Proof.
  apply (invalid_coordinates_are_rejected Sample.upstream Sample.clock
           Sample.utcnow Sample.str_exn Sample.parses 91 0 Sample.state0).
  left. vm_compute. reflexivity.
Defined.

Lemma hourly_503_is_propagated :
  fst (get_forecast Sample.upstream_hourly_503 Sample.clock Sample.utcnow
         Sample.str_exn Sample.parses 40.7129 (-74.0059) Sample.state0)
  = Raise (HTTPException 503 "Weather API error: Service Unavailable").
Proof.
  apply (upstream_status_is_propagated Sample.upstream_hourly_503 Sample.clock
           Sample.utcnow Sample.str_exn Sample.parses 40.7129 (-74.0059) Sample.state0
           (Build_Response 503 "Service Unavailable" None)).
  - right.
    exists Sample.new_york,
      (snd (get_grid_point Sample.upstream_hourly_503 Sample.clock
              40.7129 (-74.0059) Sample.state0)),
      Sample.forecast_url.
    repeat split; vm_compute; reflexivity.
  - right. reflexivity.
Defined.

Lemma sample_periods_are_kept :
  get_hourly_forecast Sample.upstream Sample.parses (JStr Sample.forecast_url) Sample.state0
  = (Ok (map SpecWords.period_shape
           [Sample.period_1; Sample.period_2; Sample.period_1]),
     sent (Url Sample.forecast_url) Sample.state0).
Proof.
  apply (hourly_forecast_keeps_every_period Sample.upstream Sample.parses
           Sample.forecast_url Sample.state0
           (Build_Response 200 "{...}" (Some Sample.forecast_body))
           Sample.forecast_body
           (JObj [("periods",
                   JList [Sample.period_1; Sample.period_2; Sample.period_1])])
           [Sample.period_1; Sample.period_2; Sample.period_1]);
    try (vm_compute; reflexivity).
  repeat constructor.
Defined.

Lemma empty_description_is_NA :
  fst (get_current_conditions Sample.upstream Sample.parses (JStr Sample.stations_url)
         Sample.state0) = Ok (Some Sample.observed)
  /\ cc_description Sample.observed = JStr "N/A"
  /\ cc_icon Sample.observed = JStr "".
Proof.
  split; [vm_compute; reflexivity |].
  destruct (empty_description_defaults_to_NA Sample.upstream Sample.parses
              (JStr Sample.stations_url) Sample.state0
              (snd (get_current_conditions Sample.upstream Sample.parses
                      (JStr Sample.stations_url) Sample.state0))
              Sample.observed)
    as (station_id & resp & obs & props & Hup & Hj & Hp & _ & Hd & _ & Hi).
  - vm_compute. reflexivity.
  - vm_compute in Hup. injection Hup as <-.
    vm_compute in Hj. injection Hj as <-.
    vm_compute in Hp. injection Hp as <-.
    split; [apply Hd | apply Hi]; vm_compute; reflexivity.
Defined.

Lemma forecast_without_stations_succeeds :
  exists resp s3,
    get_forecast Sample.upstream_no_stations Sample.clock Sample.utcnow
      Sample.str_exn Sample.parses 40.7129 (-74.0059) Sample.state0
    = (Ok resp, s3)
    /\ hourlyForecast resp
       = map SpecWords.period_shape
           [Sample.period_1; Sample.period_2; Sample.period_1]
    /\ currentConditions resp = None.
Proof.
  destruct (current_conditions_never_raise Sample.upstream_no_stations
              Sample.clock Sample.utcnow Sample.str_exn Sample.parses)
    as (_ & _ & Hnone & Hforecast).
  destruct (Hforecast 40.7129%float (-74.0059)%float Sample.state0
              (snd (get_grid_point Sample.upstream_no_stations Sample.clock
                      40.7129 (-74.0059) Sample.state0))
              (sent (Url Sample.forecast_url)
                 (snd (get_grid_point Sample.upstream_no_stations Sample.clock
                         40.7129 (-74.0059) Sample.state0)))
              Sample.new_york
              (map SpecWords.period_shape
                 [Sample.period_1; Sample.period_2; Sample.period_1]))
    as (resp & s3 & Hrun & Hh & Hc).
  - vm_compute. reflexivity.
  - vm_compute. reflexivity.
  - exists resp, s3. split; [exact Hrun |]. split; [exact Hh |].
    rewrite (Hnone Sample.stations_url) in Hc.
    + now injection Hc as <-.
    + right. right.
      exists (Build_Response 200 "{...}" (Some Sample.no_stations_body)).
      split; [vm_compute; reflexivity |].
      right. right. exists Sample.no_stations_body.
      split; [reflexivity |]. right. reflexivity.
Defined.

(** ** Further runs on the sample upstream *)

Example fresh_entry_is_served_without_a_GET :
  get_grid_point Sample.upstream Sample.clock 40.7129 (-74.0059)
    Sample.state_fresh
  = (Ok Sample.new_york, tick Sample.state_fresh).
Proof. vm_compute. reflexivity. Qed.

Example points_503_is_propagated :
  fst (forecast_route Sample.upstream_points_503 Sample.clock Sample.utcnow
         Sample.str_exn Sample.parses 40.7129 (-74.0059) Sample.state0)
  = Failure 503 "Weather API error: Service Unavailable".
Proof. vm_compute. reflexivity. Qed.

Example failed_lookup_is_not_cached :
  let s1 := snd (get_grid_point Sample.upstream_points_503 Sample.clock
                   40.7129 (-74.0059) Sample.state0) in
  grid_point_cache s1 = ∅
  /\ requests (snd (get_grid_point Sample.upstream_points_503 Sample.clock
                      40.7129 (-74.0059) s1))
     = [PointsUrl 40.7129 (-74.0059); PointsUrl 40.7129 (-74.0059)].
Proof. split; vm_compute; reflexivity. Qed.

Example format_4f_rounds_half_even :
  format_4f 0.03125 = "0.0312"
  /\ format_4f 0.09375 = "0.0938"
  /\ format_4f (-0.00001) = "-0.0000"
  /\ format_4f 0.99995 = "1.0000".
Proof. repeat split; vm_compute; reflexivity. Qed.

(** * Further properties of the router *)

Section RouterEffects.

Variable upstream : nat -> url -> reply.
Variable clock : nat -> float.
Variable utcnow : nat -> string.
Variable str_exn : exn -> string.
Variable parses : url -> bool.

Import Effects.

(** ** What each call does to the state *)

Lemma snd_bind_preserves {A B} (c : M A) (f : A -> M B) (s : State) :
  (forall a, preserves (f a)) -> snd ((c ≫= f) s) = snd (c s).
Proof.
  intros Hf. rewrite run_bind.
  destruct (c s) as [[a | e] s']; cbn; [apply Hf | reflexivity].
Qed.

Lemma preserves_bind {A B} (c : M A) (f : A -> M B) :
  preserves c -> (forall a, preserves (f a)) -> preserves (c ≫= f).
Proof.
  intros Hc Hf s. rewrite snd_bind_preserves by exact Hf. apply Hc.
Qed.

Lemma preserves_lift {A} (r : result A) : preserves (lift r).
Proof. intros s. reflexivity. Qed.

Lemma preserves_mret {A} (a : A) : preserves (mret a : M A).
Proof. intros s. reflexivity. Qed.

Lemma preserves_raise {A} (e : exn) : preserves (raise e : M A).
Proof. intros s. reflexivity. Qed.

Lemma preserves_raise_for_status (r : Response) :
  preserves (raise_for_status r).
Proof. intros s. unfold raise_for_status. now destruct (is_success r). Qed.

Lemma preserves_response_json (r : Response) : preserves (response_json r).
Proof. intros s. unfold response_json. now destruct (json r). Qed.

Create HintDb frame.
#[local] Hint Resolve preserves_lift preserves_mret preserves_raise
  preserves_raise_for_status preserves_response_json : frame.

Ltac frame :=
  repeat first
    [ apply preserves_bind; [| intros ?]
    | solve [auto with frame] ].

(** The state after a guarded GET: untouched, or with the request added. *)
Lemma client_get_checked_state (u : url) (s : State) :
  snd (client_get_checked upstream parses u s)
  = if parses u then sent u s else s.
Proof.
  unfold client_get_checked, client_get. destruct (parses u); [| reflexivity].
  now destruct (upstream _ u).
Qed.

Lemma client_get_value_state (v : json_value) (s : State) :
  snd (client_get_value upstream parses v s)
  = match v with
    | JStr u => if parses (Url u) then sent (Url u) s else s
    | _ => s
    end.
Proof.
  destruct v; try reflexivity. apply client_get_checked_state.
Qed.

(** [get_hourly_forecast] sends at most its one GET and changes nothing
    else. *)
Lemma get_hourly_forecast_state (v : json_value) (s : State) :
  snd (get_hourly_forecast upstream parses v s)
  = match v with
    | JStr u => if parses (Url u) then sent (Url u) s else s
    | _ => s
    end.
Proof.
  unfold get_hourly_forecast. rewrite snd_bind_preserves.
  - apply client_get_value_state.
  - intros r. frame.
Qed.

Ltac unfold_calls :=
  unfold get_hourly_forecast, current_conditions_body,
    client_get_value, client_get_checked, client_get, time_time,
    utcnow_isoformat, cache_get, cache_set, raise_for_status, response_json,
    lift, raise, mbind, mret, M_bind, M_ret in *;
  cbn beta iota zeta in *.

Lemma state_eta (s : State) :
  s = {| grid_point_cache := grid_point_cache s;
         requests := [] ++ requests s; ticks := ticks s |}.
Proof. now destruct s. Qed.

(** The GETs of [get_current_conditions]: none, the stations request, or
    the stations request and then one observation request. *)
Lemma get_current_conditions_state (v : json_value) (s : State) :
  exists cs : list url,
    snd (get_current_conditions upstream parses v s)
    = {| grid_point_cache := grid_point_cache s;
         requests := cs ++ requests s;
         ticks := ticks s |}
    /\ (cs = [] \/ (exists u, v = JStr u /\ cs = [Url u])
        \/ exists u id, v = JStr u /\ cs = [LatestObservationUrl id; Url u]).
Proof.
  unfold get_current_conditions.
  assert (Hsnd : snd (try_except (current_conditions_body upstream parses v)
                        (fun _ => mret None) s)
                 = snd (current_conditions_body upstream parses v s)).
  { unfold try_except.
    now destruct (current_conditions_body upstream parses v s) as [[r | e] s']. }
  rewrite Hsnd. clear Hsnd.
  assert (H0 : exists cs : list url,
             s = {| grid_point_cache := grid_point_cache s;
                    requests := cs ++ requests s; ticks := ticks s |}
             /\ (cs = [] \/ (exists u, v = JStr u /\ cs = [Url u])
                 \/ exists u id, v = JStr u
                                 /\ cs = [LatestObservationUrl id; Url u]))
    by (exists []; split; [apply state_eta | now left]).
  unfold_calls.
  destruct v as [| | | | u | |]; try exact H0.
  destruct (parses (Url u)); [| exact H0]. clear H0.
  assert (H1 : exists cs : list url,
             sent (Url u) s
             = {| grid_point_cache := grid_point_cache s;
                  requests := cs ++ requests s; ticks := ticks s |}
             /\ (cs = [] \/ (exists u0, JStr u = JStr u0 /\ cs = [Url u0])
                 \/ exists u0 id, JStr u = JStr u0
                                  /\ cs = [LatestObservationUrl id; Url u0]))
    by (exists [Url u]; split; [reflexivity | right; left; now exists u]).
  destruct (upstream (length (requests s)) (Url u)) as [r1 | msg];
    cbn; [| exact H1].
  destruct (is_success r1); cbn; [| exact H1].
  destruct (json r1) as [b1 |]; cbn; [| exact H1].
  destruct (getitem b1 "features") as [stations |]; cbn; [| exact H1].
  destruct (truthy stations); cbn; [| exact H1].
  destruct (getitem0 stations) as [first |]; cbn; [| exact H1].
  destruct (getitem first "id") as [id |]; cbn; [| exact H1].
  destruct (parses (LatestObservationUrl id)); cbn; [| exact H1]. clear H1.
  assert (H2 : exists cs : list url,
             sent (LatestObservationUrl id) (sent (Url u) s)
             = {| grid_point_cache := grid_point_cache s;
                  requests := cs ++ requests s; ticks := ticks s |}
             /\ (cs = [] \/ (exists u0, JStr u = JStr u0 /\ cs = [Url u0])
                 \/ exists u0 id0, JStr u = JStr u0
                                   /\ cs = [LatestObservationUrl id0; Url u0]))
    by (exists [LatestObservationUrl id; Url u];
        split; [reflexivity | right; right; now exists u, id]).
  destruct (upstream _ (LatestObservationUrl id)) as [r2 | msg];
    cbn; [| exact H2].
  destruct (is_success r2); cbn; [| exact H2].
  destruct (json r2) as [obs |]; cbn; [| exact H2].
  destruct (getitem obs "properties") as [props |]; cbn; [| exact H2].
  destruct (conditions_of_props props); cbn; exact H2.
Qed.

(** What [get_grid_point] leaves: at most its one GET, and the cache as it
    was or with the entry of the key set. *)
Lemma get_grid_point_state (lat lon : float) (s : State) :
  exists (pts : list url) (s' : State),
    snd (get_grid_point upstream clock lat lon s) = s'
    /\ requests s' = pts ++ requests s
    /\ (pts = [] \/ pts = [PointsUrl lat lon])
    /\ (grid_point_cache s' = grid_point_cache s
        \/ exists e, grid_point_cache s'
                     = <[cache_key lat lon := e]> (grid_point_cache s)).
Proof.
  destruct (hit_or_miss clock lat lon s) as [(e & Hc & Hf) | Hm].
  - rewrite (get_grid_point_hit upstream clock lat lon s e Hc Hf).
    exists [], (tick s). repeat split; auto.
  - destruct (get_grid_point_miss_inv upstream clock lat lon s Hm)
      as (r & s' & Heq & Hreq & Hok & Hraise).
    rewrite Heq. exists [PointsUrl lat lon], s'.
    split; [reflexivity |]. split; [exact Hreq |]. split; [now right |].
    destruct r as [d | e].
    + right. destruct (Hok d eq_refl) as (n & _ & _ & Hcache). eauto.
    + left. eauto.
Qed.

Lemma get_forecast_state (lat lon : float) (s : State) :
  snd (get_forecast upstream clock utcnow str_exn parses lat lon s)
  = snd (forecast_body upstream clock utcnow parses lat lon s).
Proof.
  unfold get_forecast, try_except.
  destruct (forecast_body upstream clock utcnow parses lat lon s)
    as [[r | e] s']; [reflexivity |].
  now destruct e.
Qed.

(** Summary of one forecast: the GETs it sent, latest first, and
    the cache it left. *)
Lemma forecast_body_state (lat lon : float) (s : State) :
  exists (pts hs cs : list url) (s' : State),
    snd (forecast_body upstream clock utcnow parses lat lon s) = s'
    /\ requests s' = cs ++ hs ++ pts ++ requests s
    /\ (pts = [] \/ pts = [PointsUrl lat lon])
    /\ (hs = [] \/ exists u, hs = [Url u])
    /\ (cs = [] \/ (exists u, cs = [Url u])
        \/ exists u id, cs = [LatestObservationUrl id; Url u])
    /\ (hs = [] -> cs = [])
    /\ (grid_point_cache s' = grid_point_cache s
        \/ exists e, grid_point_cache s'
                     = <[cache_key lat lon := e]> (grid_point_cache s)).
Proof.
  unfold forecast_body. rewrite run_bind.
  destruct (get_grid_point_state lat lon s)
    as (pts & s1 & Hs1 & Hreq1 & Hpts & Hcache1).
  destruct (get_grid_point upstream clock lat lon s) as [[g | e] s1'];
    cbn in Hs1; subst s1'.
  2: { exists pts, [], [], s1. cbn. repeat split; auto. }
  rewrite run_bind.
  pose proof (get_hourly_forecast_state (forecastHourly g) s1) as Hs2.
  destruct (get_hourly_forecast upstream parses (forecastHourly g) s1)
    as [[h | e] s2] eqn:Hh; cbn in Hs2; subst s2.
  2: { destruct (forecastHourly g) as [| | | | u | |].
       all: try (exists pts, [], [], s1; cbn; repeat split; solve [auto]).
       destruct (parses (Url u)).
       - exists pts, [Url u], [], (sent (Url u) s1). unfold sent; cbn.
         rewrite Hreq1. repeat split; eauto.
       - exists pts, [], [], s1; cbn; repeat split; auto. }
  assert (Hsent : exists u, forecastHourly g = JStr u /\ parses (Url u) = true).
  { revert Hh. unfold_calls.
    destruct (forecastHourly g) as [| | | | u | |]; cbn; try discriminate.
    destruct (parses (Url u)) eqn:Hpu; cbn; [| discriminate].
    intros _. now exists u. }
  destruct Hsent as (u & Hu & Hpu). rewrite Hu, Hpu.
  rewrite run_bind.
  destruct (get_current_conditions_state (observationStations g) (sent (Url u) s1))
    as (cs & Hs3 & Hcs).
  destruct (get_current_conditions upstream parses (observationStations g)
              (sent (Url u) s1)) as [[c | e] s3]; cbn in Hs3; subst s3.
  - rewrite run_bind. cbn.
    eexists pts, [Url u], cs, _. split; [reflexivity |]. unfold sent, tick; cbn.
    rewrite Hreq1. repeat split; eauto.
    + destruct Hcs as [-> | [(u0 & _ & ->) | (u0 & id & _ & ->)]]; eauto.
    + discriminate.
  - eexists pts, [Url u], cs, _. split; [reflexivity |]. unfold sent, tick; cbn.
    rewrite Hreq1. repeat split; eauto.
    + destruct Hcs as [-> | [(u0 & _ & ->) | (u0 & id & _ & ->)]]; eauto.
    + discriminate.
Qed.

(** ** Requests and cache of one forecast *)


(** X2: a forecast changes the cache at the key of its coordinates only,
    and it removes no entry. *)
Theorem forecast_touches_one_cache_key (lat lon : float) (s : State) (k : string) :
  (k <> cache_key lat lon ->
   grid_point_cache
     (snd (get_forecast upstream clock utcnow str_exn parses lat lon s)) !! k
   = grid_point_cache s !! k)
  /\ (is_Some (grid_point_cache s !! k) ->
      is_Some (grid_point_cache
                 (snd (get_forecast upstream clock utcnow str_exn parses
                         lat lon s)) !! k)).
Proof.
  rewrite get_forecast_state.
  destruct (forecast_body_state lat lon s)
    as (pts & hs & cs & s' & -> & _ & _ & _ & _ & _ & [-> | (e & ->)]).
  - auto.
  - split.
    + intros Hk. now rewrite lookup_insert_ne.
    + intros Hs. destruct (decide (cache_key lat lon = k)) as [<- | Hne].
      * rewrite lookup_insert_eq. eauto.
      * now rewrite lookup_insert_ne.
Qed.

(** X3: a lookup that fails is not remembered: when there is no entry for
    the key and the call raises, the cache is as before and the next call
    for the same coordinates sends the points request again. *)
Theorem failed_lookup_is_retried
  (lat lon : float) (s s1 : State) (e : exn) :
  grid_point_cache s !! cache_key lat lon = None ->
  get_grid_point upstream clock lat lon s = (Raise e, s1) ->
  grid_point_cache s1 = grid_point_cache s
  /\ requests (snd (get_grid_point upstream clock lat lon s1))
     = PointsUrl lat lon :: PointsUrl lat lon :: requests s.
Proof.
  intros Hnone Hrun.
  assert (Hm : misses clock lat lon s) by (unfold misses; now rewrite Hnone).
  destruct (get_grid_point_miss_inv upstream clock lat lon s Hm)
    as (r & s' & Heq & Hreq & _ & Hraise).
  rewrite Hrun in Heq. injection Heq as <- <-.
  specialize (Hraise e eq_refl). split; [exact Hraise |].
  assert (Hm1 : misses clock lat lon s1)
    by (unfold misses; now rewrite Hraise, Hnone).
  destruct (get_grid_point_miss_inv upstream clock lat lon s1 Hm1)
    as (r2 & s2 & -> & Hreq2 & _). cbn. now rewrite Hreq2, Hreq.
Qed.

(** ** How a forecast fails *)

Lemma getitem_raises (v : json_value) (k : string) (e : exn) :
  getitem v k = Raise e -> payload_error e = true.
Proof.
  unfold getitem. destruct v; try (now intros [= <-]).
  destruct (dict_lookup k items); [discriminate | now intros [= <-]].
Qed.

Lemma get_raises (v : json_value) (k : string) (d : json_value) (e : exn) :
  get v k d = Raise e -> payload_error e = true.
Proof.
  unfold get. destruct v; try (now intros [= <-]).
  destruct (dict_lookup k items); discriminate.
Qed.

Lemma nested_value_raises (v : json_value) (k : string) (e : exn) :
  nested_value v k = Raise e -> payload_error e = true.
Proof.
  unfold nested_value. cbn.
  destruct (get v k (JObj [])) as [c |] eqn:Hc; cbn.
  - apply get_raises.
  - intros [= <-]. now apply get_raises in Hc.
Qed.


Ltac raise_step H t lem :=
  let E := fresh "E" in
  let x := fresh "x" in
  destruct t as [x |] eqn:E; cbn in H;
  [| injection H as <-; now apply lem in E].

Lemma grid_point_of_props_raises (props : json_value) (e : exn) :
  grid_point_of_props props = Raise e -> payload_error e = true.
Proof.
  unfold grid_point_of_props, mbind, result_bind. intros H.
  raise_step H (getitem props "gridId") getitem_raises.
  raise_step H (getitem props "gridX") getitem_raises.
  raise_step H (getitem props "gridY") getitem_raises.
  raise_step H (getitem props "forecastHourly") getitem_raises.
  raise_step H (getitem props "observationStations") getitem_raises.
  raise_step H (getitem props "relativeLocation") getitem_raises.
  match type of H with
  | context [getitem ?l "properties"] =>
      raise_step H (getitem l "properties") getitem_raises
  end.
  match type of H with
  | context [getitem ?p "city"] =>
      raise_step H (getitem p "city") getitem_raises;
      raise_step H (getitem p "state") getitem_raises
  end.
  discriminate.
Qed.

Lemma forecast_period_raises (p : json_value) (e : exn) :
  forecast_period p = Raise e -> payload_error e = true.
Proof.
  unfold forecast_period, mbind, result_bind. intros H.
  raise_step H (getitem p "startTime") getitem_raises.
  raise_step H (getitem p "temperature") getitem_raises.
  raise_step H (getitem p "temperatureUnit") getitem_raises.
  raise_step H (nested_value p "probabilityOfPrecipitation") nested_value_raises.
  raise_step H (nested_value p "relativeHumidity") nested_value_raises.
  raise_step H (getitem p "windSpeed") getitem_raises.
  raise_step H (getitem p "windDirection") getitem_raises.
  raise_step H (getitem p "icon") getitem_raises.
  raise_step H (getitem p "shortForecast") getitem_raises.
  raise_step H (getitem p "isDaytime") getitem_raises.
  discriminate.
Qed.










Lemma comprehension_fails {A B} (f : A -> result B) (xs : list A) (x : A) :
  In x xs -> is_ok (f x) = false ->
  exists e x', In x' xs /\ f x' = Raise e /\ comprehension f xs = Raise e.
Proof.
  induction xs as [| y xs IH]; cbn; [now intros [] |].
  intros Hin Hx. destruct (f y) as [b |] eqn:Hy; cbn.
  - destruct Hin as [-> | Hin]; [rewrite Hy in Hx; discriminate |].
    destruct (IH Hin Hx) as (e & x' & Hin' & Hx' & ->). cbn.
    exists e, x'. auto.
  - exists e, y. auto.
Qed.

(** X6: the hourly forecast is all or nothing: when one period of a 2xx
    payload cannot be transformed, no list is returned, the forecast fails
    with status 500 and the stations are not asked. *)
Theorem one_bad_period_fails_the_forecast
  (lat lon : float) (s s1 : State) (g : GridPoint) (u : string)
  (resp : Response) (body props : json_value) (periods : list json_value)
  (p : json_value) :
  get_grid_point upstream clock lat lon s = (Ok g, s1) ->
  forecastHourly g = JStr u ->
  parses (Url u) = true ->
  upstream (length (requests s1)) (Url u) = Replied resp ->
  is_success resp = true ->
  json resp = Some body ->
  getitem body "properties" = Ok props ->
  getitem props "periods" = Ok (JList periods) ->
  In p periods ->
  is_ok (forecast_period p) = false ->
  exists e : exn,
    payload_error e = true
    /\ get_hourly_forecast upstream parses (JStr u) s1
       = (Raise e, sent (Url u) s1)
    /\ get_forecast upstream clock utcnow str_exn parses lat lon s
       = (Raise (HTTPException 500
                   ("Failed to fetch weather: " +:+ str_exn e)),
          sent (Url u) s1).
Proof.
  intros Hg Hu Hpa Hup Hs Hj Hp Hps Hin Hbad.
  destruct (comprehension_fails forecast_period periods p Hin Hbad)
    as (e & p' & _ & Hp' & Hc).
  assert (He : payload_error e = true)
    by exact (forecast_period_raises p' e Hp').
  assert (Hh : get_hourly_forecast upstream parses (JStr u) s1
               = (Raise e, sent (Url u) s1)).
  { unfold_calls. rewrite Hpa, Hup. cbn. rewrite Hs. cbn. rewrite Hj. cbn.
    rewrite Hp, Hps. cbn. now rewrite Hc. }
  exists e. split; [exact He |]. split; [exact Hh |].
  unfold get_forecast, try_except, forecast_body.
  rewrite run_bind, Hg, run_bind, Hu, Hh.
  now destruct e.
Qed.

(** X7: an optional container that is present but not an object (an
    explicit null, say) is not read as absent: the period cannot be
    transformed; with the three fields before it present, the exception is
    the [AttributeError] of calling [get] on it. *)
Theorem null_container_is_not_absent
  (items : list (string * json_value)) (k : string) (v : json_value) :
  k = "probabilityOfPrecipitation" \/ k = "relativeHumidity" ->
  dict_lookup k items = Some v ->
  (forall c, v <> JObj c) ->
  is_ok (forecast_period (JObj items)) = false
  /\ (k = "probabilityOfPrecipitation" ->
      SpecWords.has_key "startTime" items = true ->
      SpecWords.has_key "temperature" items = true ->
      SpecWords.has_key "temperatureUnit" items = true ->
      forecast_period (JObj items) = Raise AttributeError).
Proof.
  intros Hk Hv Hobj.
  assert (Hn : nested_value (JObj items) k = Raise AttributeError).
  { unfold nested_value, get. cbn. rewrite Hv. cbn.
    destruct v; try reflexivity. now destruct (Hobj items0). }
  split.
  - unfold forecast_period, mbind, result_bind.
    destruct (getitem _ "startTime"); [| reflexivity].
    destruct (getitem _ "temperature"); [| reflexivity].
    destruct (getitem _ "temperatureUnit"); [| reflexivity].
    destruct Hk as [-> | ->].
    + now rewrite Hn.
    + destruct (nested_value _ "probabilityOfPrecipitation"); [| reflexivity].
      now rewrite Hn.
  - intros -> H1 H2 H3. unfold SpecWords.has_key in *.
    unfold forecast_period, mbind, result_bind, getitem.
    destruct (dict_lookup "startTime" items); [| discriminate].
    destruct (dict_lookup "temperature" items); [| discriminate].
    destruct (dict_lookup "temperatureUnit" items); [| discriminate].
    now rewrite Hn.
Qed.

(** X8: a points payload that lacks one of the fields of a grid point is
    not cached in part: the lookup raises, the cache is as before, and the
    forecast fails with status 500 after that single GET. *)
Theorem partial_grid_point_is_not_cached
  (lat lon : float) (s : State) (resp : Response) (body props : json_value)
  (e : exn) :
  misses clock lat lon s ->
  upstream (length (requests s)) (PointsUrl lat lon) = Replied resp ->
  is_success resp = true ->
  json resp = Some body ->
  getitem body "properties" = Ok props ->
  grid_point_of_props props = Raise e ->
  exists s',
    get_grid_point upstream clock lat lon s = (Raise e, s')
    /\ grid_point_cache s' = grid_point_cache s
    /\ requests s' = PointsUrl lat lon :: requests s
    /\ get_forecast upstream clock utcnow str_exn parses lat lon s
       = (Raise (HTTPException 500
                   ("Failed to fetch weather: " +:+ str_exn e)), s').
Proof.
  intros Hm Hup Hs Hj Hp Hd.
  assert (He : payload_error e = true)
    by exact (grid_point_of_props_raises props e Hd).
  assert (Hg : get_grid_point upstream clock lat lon s
               = (Raise e, sent (PointsUrl lat lon) (checked lat lon s))).
  { rewrite (get_grid_point_miss upstream clock lat lon s Hm). cbn zeta.
    rewrite Hup, Hs, Hj. cbn. rewrite Hp. cbn. now rewrite Hd. }
  destruct (checked_requests lat lon s) as (Hreq & Hcache & _).
  eexists. split; [exact Hg |]. unfold sent; cbn.
  split; [exact Hcache |]. split; [now rewrite Hreq |].
  unfold get_forecast, try_except, forecast_body.
  rewrite run_bind, Hg. now destruct e.
Qed.

(** ** Current conditions *)

(** The run of [get_current_conditions] up to the observation request. *)
Lemma first_station_run
  (u : string) (s : State) (resp : Response)
  (body first id : json_value) (rest : list json_value) :
  parses (Url u) = true ->
  upstream (length (requests s)) (Url u) = Replied resp ->
  is_success resp = true ->
  json resp = Some body ->
  getitem body "features" = Ok (JList (first :: rest)) ->
  getitem first "id" = Ok id ->
  parses (LatestObservationUrl id) = true ->
  get_current_conditions upstream parses (JStr u) s
  = (match upstream (S (length (requests s))) (LatestObservationUrl id) with
     | Replied r2 =>
         if is_success r2 then
           match json r2 with
           | Some obs =>
               match props ← getitem obs "properties"; conditions_of_props props with
               | Ok cc => Ok (Some cc)
               | Raise _ => Ok None
               end
           | None => Ok None
           end
         else Ok None
     | Unreachable _ => Ok None
     end,
     sent (LatestObservationUrl id) (sent (Url u) s)).
Proof.
  intros Hpa Hup Hs Hj Hf Hid Hpo.
  unfold get_current_conditions, try_except. unfold_calls.
  rewrite Hpa, Hup. cbn. rewrite Hs. cbn. rewrite Hj. cbn. rewrite Hf. cbn.
  rewrite Hid. cbn. rewrite Hpo. unfold sent at 1. cbn [requests length].
  destruct (upstream _ (LatestObservationUrl id)) as [r2 | msg];
    cbn; [| reflexivity].
  destruct (is_success r2); cbn; [| reflexivity].
  destruct (json r2) as [obs |]; cbn; [| reflexivity].
  destruct (getitem obs "properties") as [props |]; cbn; [| reflexivity].
  now destruct (conditions_of_props props).
Qed.

(** X9: the observation is asked of the first station of the list, the
    other stations being ignored: the second GET is the latest observation
    of the first station's id, and the result is the conditions in the
    reply to that GET, or [None] when they cannot be read. *)
Theorem first_station_is_asked
  (u : string) (s : State) (resp : Response)
  (body first id : json_value) (rest : list json_value) :
  parses (Url u) = true ->
  upstream (length (requests s)) (Url u) = Replied resp ->
  is_success resp = true ->
  json resp = Some body ->
  getitem body "features" = Ok (JList (first :: rest)) ->
  getitem first "id" = Ok id ->
  parses (LatestObservationUrl id) = true ->
  requests (snd (get_current_conditions upstream parses (JStr u) s))
  = LatestObservationUrl id :: Url u :: requests s
  /\ (forall r2 obs props,
        upstream (S (length (requests s))) (LatestObservationUrl id)
        = Replied r2 ->
        is_success r2 = true ->
        json r2 = Some obs ->
        getitem obs "properties" = Ok props ->
        fst (get_current_conditions upstream parses (JStr u) s)
        = match conditions_of_props props with
          | Ok cc => Ok (Some cc)
          | Raise _ => Ok None
          end).
Proof.
  intros Hpa Hup Hs Hj Hf Hid Hpo.
  rewrite (first_station_run u s resp body first id rest) by assumption.
  split; [reflexivity |].
  intros r2 obs props Hup2 Hs2 Hj2 Hp. cbn. now rewrite Hup2, Hs2, Hj2, Hp.
Qed.

(** X10: a station list that is falsy, be it the empty list, [null], an
    empty object or string, zero or [false], ends the call at once: [None]
    after the one stations request. *)
Theorem falsy_station_list_gives_None
  (u : string) (s : State) (resp : Response) (body stations : json_value) :
  parses (Url u) = true ->
  upstream (length (requests s)) (Url u) = Replied resp ->
  is_success resp = true ->
  json resp = Some body ->
  getitem body "features" = Ok stations ->
  truthy stations = false ->
  get_current_conditions upstream parses (JStr u) s
  = (Ok None, sent (Url u) s).
Proof.
  intros Hpa Hup Hs Hj Hf Ht.
  unfold get_current_conditions, try_except. unfold_calls.
  rewrite Hpa, Hup. cbn. rewrite Hs. cbn. rewrite Hj. cbn. rewrite Hf. cbn.
  now rewrite Ht.
Qed.

Lemma is_nan_Prim2SF (c : float) : is_nan c = true -> Prim2SF c = S754_nan.
Proof. unfold Prim2SF. now intros ->. Qed.

Lemma is_infinity_Prim2SF (c : float) :
  is_infinity c = true -> exists sg, Prim2SF c = S754_infinity sg.
Proof.
  unfold is_infinity. rewrite FloatAxioms.eqb_spec, FloatAxioms.abs_spec.
  change (Prim2SF infinity) with (S754_infinity false).
  destruct (Prim2SF c) as [sg | sg | | sg m e]; cbn; try discriminate.
  intros _. now exists sg.
Qed.

(** [celsius_to_fahrenheit] raises on what is not a temperature. *)
Lemma celsius_to_fahrenheit_unusable (v : json_value) :
  unusable_temperature v = true -> is_ok (celsius_to_fahrenheit v) = false.
Proof.
  destruct v as [| | | c | | |]; cbn; try discriminate; try reflexivity.
  intros H. apply orb_true_iff in H. unfold round.
  rewrite FloatAxioms.add_spec, FloatAxioms.div_spec, FloatAxioms.mul_spec.
  destruct H as [H | H].
  - rewrite (is_nan_Prim2SF c H). reflexivity.
  - destruct (is_infinity_Prim2SF c H) as (sg & ->). now destruct sg.
Qed.

(** X11: the observation is all or nothing: when the value of its
    temperature is a string, a list, an object or a float that is not
    finite, or when one of its containers is present and not an object,
    no conditions are returned at all, not conditions without that field. *)
Theorem unusable_field_drops_the_conditions
  (u : string) (s : State) (resp r2 : Response)
  (body first id obs props : json_value) (rest : list json_value) :
  parses (Url u) = true ->
  upstream (length (requests s)) (Url u) = Replied resp ->
  is_success resp = true ->
  json resp = Some body ->
  getitem body "features" = Ok (JList (first :: rest)) ->
  getitem first "id" = Ok id ->
  parses (LatestObservationUrl id) = true ->
  upstream (S (length (requests s))) (LatestObservationUrl id) = Replied r2 ->
  is_success r2 = true ->
  json r2 = Some obs ->
  getitem obs "properties" = Ok props ->
  (exists v, nested_value props "temperature" = Ok v
             /\ unusable_temperature v = true)
  \/ (exists k, In k ["temperature"; "relativeHumidity"; "windSpeed";
                      "windDirection"; "barometricPressure"]
                /\ is_ok (nested_value props k) = false) ->
  fst (get_current_conditions upstream parses (JStr u) s) = Ok None.
Proof.
  intros Hpa Hup Hs Hj Hf Hid Hpo Hup2 Hs2 Hj2 Hp Hbad.
  rewrite (first_station_run u s resp body first id rest) by assumption.
  cbn. rewrite Hup2, Hs2, Hj2, Hp. cbn.
  assert (Hc : is_ok (conditions_of_props props) = false).
  { unfold conditions_of_props, mbind, result_bind.
    destruct Hbad as [(v & Hv & Hun) | (k & Hk & Hn)].
    - rewrite Hv. apply celsius_to_fahrenheit_unusable in Hun.
      now destruct (celsius_to_fahrenheit v).
    - destruct (nested_value props "temperature") as [t |] eqn:Ht;
        [| reflexivity].
      destruct (celsius_to_fahrenheit t); [| reflexivity].
      destruct (get props "timestamp" JNull); [| reflexivity].
      destruct (get props "textDescription" JNull); [| reflexivity].
      destruct (get props "icon" JNull); [| reflexivity].
      destruct (nested_value props "relativeHumidity") eqn:H1; [| reflexivity].
      destruct (nested_value props "windSpeed") eqn:H2; [| reflexivity].
      destruct (nested_value props "windDirection") eqn:H3; [| reflexivity].
      destruct (nested_value props "barometricPressure") eqn:H4; [| reflexivity].
      cbn in Hk.
      destruct Hk as [<- | [<- | [<- | [<- | [<- | []]]]]];
        match goal with
        | E : nested_value props ?k = Ok _, N : is_ok (nested_value props ?k) = false |- _ =>
            rewrite E in N; discriminate N
        end. }
  now destruct (conditions_of_props props).
Qed.

(** ** The cache key and the time to live *)

Lemma append_nil (s : string) : "" +:+ s = s.
Proof. reflexivity. Qed.

Lemma append_cons (c : Ascii.ascii) (s t : string) :
  String c s +:+ t = String c (s +:+ t).
Proof. reflexivity. Qed.

Lemma no_comma_append (s t : string) :
  no_comma (s +:+ t) = no_comma s && no_comma t.
Proof.
  induction s as [| c s IH]; [reflexivity |].
  rewrite append_cons. cbn [no_comma]. now rewrite IH, andb_assoc.
Qed.

Lemma no_comma_uint (d : Decimal.uint) :
  no_comma (NilEmpty.string_of_uint d) = true.
Proof. induction d; cbn; auto. Qed.

Lemma no_comma_decimal (z : Z) : no_comma (decimal z) = true.
Proof.
  unfold decimal, NilZero.string_of_uint.
  destruct (N.to_uint (Z.to_N z)) eqn:E; try reflexivity;
    rewrite <- E; apply no_comma_uint.
Qed.

Lemma no_comma_format_4f (x : float) : no_comma (format_4f x) = true.
Proof.
  unfold format_4f.
  destruct (Prim2SF x) as [sg | sg | | sg m e]; try (now destruct sg);
    try reflexivity.
  rewrite !no_comma_append, !no_comma_decimal. now destruct sg.
Qed.

Lemma split_at_comma (s1 s2 t1 t2 : string) :
  no_comma s1 = true -> no_comma s2 = true ->
  s1 +:+ "," +:+ t1 = s2 +:+ "," +:+ t2 -> s1 = s2 /\ t1 = t2.
Proof.
  revert s2. induction s1 as [| c s1 IH]; intros [| c2 s2];
    rewrite ?append_cons, ?append_nil; cbn [no_comma].
  - intros _ _ [= ->]. auto.
  - intros _ H [= <- _]. discriminate H.
  - intros H _ [= -> _]. discriminate H.
  - intros H1 H2 [= -> Heq].
    apply andb_true_iff in H1 as [_ H1]. apply andb_true_iff in H2 as [_ H2].
    destruct (IH s2 H1 H2 Heq) as [-> ->]. auto.
Qed.

(** X12: the key is unambiguous: two coordinate pairs have the same key
    exactly when their latitudes are written alike and their longitudes are
    written alike by the four-decimal format. *)
Theorem cache_key_separates_coordinates (lat lon lat' lon' : float) :
  cache_key lat lon = cache_key lat' lon'
  <-> format_4f lat = format_4f lat' /\ format_4f lon = format_4f lon'.
Proof.
  unfold cache_key. split.
  - apply split_at_comma; apply no_comma_format_4f.
  - now intros [-> ->].
Qed.

Lemma decimal_starts_with_digit (z : Z) (rest : string) :
  starts_with_minus (decimal z +:+ rest) = false.
Proof.
  unfold decimal, NilZero.string_of_uint.
  destruct (N.to_uint (Z.to_N z)); reflexivity.
Qed.

Lemma format_4f_sign (x : float) :
  Prim2SF x <> S754_nan -> starts_with_minus (format_4f x) = sign_bit x.
Proof.
  unfold format_4f, sign_bit.
  destruct (Prim2SF x) as [sg | sg | | sg m e]; try (now destruct sg);
    [congruence |].
  intros _. destruct sg; [reflexivity |].
  rewrite append_nil. apply decimal_starts_with_digit.
Qed.

(** X13: the key keeps the sign of a coordinate, also when the digits are
    all zero: a latitude with the sign set (a negative number, or the
    negative zero) and one without never share a key, so that -0.0 and 0.0,
    equal as floats, have different cache entries. *)
Theorem cache_key_keeps_the_sign (lat lon lat' lon' : float) :
  Prim2SF lat <> S754_nan -> Prim2SF lat' <> S754_nan ->
  sign_bit lat <> sign_bit lat' ->
  cache_key lat lon <> cache_key lat' lon'.
Proof.
  intros Hn Hn' Hs Hk. apply Hs.
  rewrite <- (format_4f_sign lat Hn), <- (format_4f_sign lat' Hn').
  apply split_at_comma in Hk as [-> _];
    [reflexivity | apply no_comma_format_4f ..].
Qed.

Lemma negative_age_is_below_ttl (a : spec_float) :
  SFltb a (S754_zero false) = true ->
  SFltb a (Prim2SF (of_uint63 (Uint63.of_Z GRID_CACHE_TTL))) = true.
Proof.
  change (Prim2SF (of_uint63 (Uint63.of_Z GRID_CACHE_TTL)))
    with (S754_finite false 5937362789990400 (-36)).
  intros H.
  destruct a as [[] | [] | | [] m e];
    try (vm_compute in H; discriminate H); reflexivity.
Qed.

(** X14: the time to live is exclusive and one-sided: an entry whose age
    is exactly 24 hours, or is not a number, is fetched again, and an
    entry stamped after the present reading of the clock is served as
    fresh. *)
Theorem ttl_is_exclusive_and_one_sided
  (lat lon : float) (s : State) (e : CacheEntry) :
  grid_point_cache s !! cache_key lat lon = Some e ->
  ((clock (ticks s) - timestamp e = 86400)%float
   \/ is_nan (clock (ticks s) - timestamp e) = true ->
   requests (snd (get_grid_point upstream clock lat lon s))
   = PointsUrl lat lon :: requests s)
  /\ ((clock (ticks s) - timestamp e <? 0)%float = true ->
      get_grid_point upstream clock lat lon s = (Ok (data e), tick s)).
Proof.
  intros Hc. split.
  - intros H.
    assert (Hm : misses clock lat lon s).
    { unfold misses, within_ttl. rewrite Hc.
      destruct H as [-> | H]; [reflexivity |].
      rewrite ltb_spec, (is_nan_Prim2SF _ H). reflexivity. }
    destruct (get_grid_point_miss_inv upstream clock lat lon s Hm)
      as (r & s' & -> & Hreq & _). exact Hreq.
  - intros H. apply get_grid_point_hit; [exact Hc |].
    unfold within_ttl. rewrite ltb_spec in *.
    now apply negative_age_is_below_ttl.
Qed.

Lemma same_fahrenheit_sound (z : Z) :
  same_fahrenheit z = true ->
  celsius_to_fahrenheit (JInt z)
  = celsius_to_fahrenheit (JFloat (float_of_Z z)).
Proof.
  unfold same_fahrenheit.
  destruct (celsius_to_fahrenheit (JInt z)) as [[a |] |]; try discriminate.
  destruct (celsius_to_fahrenheit (JFloat _)) as [[b |] |]; try discriminate.
  intros H. apply Z.eqb_eq in H. now subst.
Qed.

(** X15: an integer temperature and the float of the same value convert
    alike: for the integers from -10000 to 10000 the int path (int
    product, true division) and the float path give the same Fahrenheit
    value. *)
Theorem int_and_float_convert_alike (z : Z) :
  -10000 <= z <= 10000 ->
  celsius_to_fahrenheit (JInt z)
  = celsius_to_fahrenheit (JFloat (float_of_Z z)).
Proof.
  intros Hz. apply same_fahrenheit_sound.
  apply (holds_from_spec _ (Z.to_nat 20001) (-10000)).
  - vm_compute. reflexivity.
  - rewrite Z2Nat.id; lia.
Qed.

(** ** A cached grid point and the points service *)

Lemma bind_ext {A B} (c c' : M A) (f f' : A -> M B) (s : State) :
  c s = c' s -> (forall a s1, f a s1 = f' a s1) ->
  (c ≫= f) s = (c' ≫= f') s.
Proof.
  intros Hc Hf. rewrite !run_bind, Hc.
  destruct (c' s) as [[a | e] s1]; [apply Hf | reflexivity].
Qed.

Section TwoUpstreams.

Variable upstream' : nat -> url -> reply.
Hypothesis agree : agree_off_points upstream upstream'.

Lemma client_get_checked_agree (u : url) (s : State) :
  (forall lat lon, u <> PointsUrl lat lon) ->
  client_get_checked upstream parses u s
  = client_get_checked upstream' parses u s.
Proof.
  intros Hu. unfold client_get_checked, client_get.
  destruct (parses u); [| reflexivity].
  pose proof (agree (length (requests s)) u) as H.
  destruct u as [lat lon | v | id]; [now destruct (Hu lat lon) | |];
    now rewrite H.
Qed.

Lemma client_get_value_agree (v : json_value) (s : State) :
  client_get_value upstream parses v s = client_get_value upstream' parses v s.
Proof.
  destruct v; try reflexivity. now apply client_get_checked_agree.
Qed.

Lemma get_hourly_forecast_agree (v : json_value) (s : State) :
  get_hourly_forecast upstream parses v s
  = get_hourly_forecast upstream' parses v s.
Proof.
  unfold get_hourly_forecast. apply bind_ext; [| reflexivity].
  apply client_get_value_agree.
Qed.

Lemma get_current_conditions_agree (v : json_value) (s : State) :
  get_current_conditions upstream parses v s
  = get_current_conditions upstream' parses v s.
Proof.
  unfold get_current_conditions, try_except.
  assert (H : current_conditions_body upstream parses v s
              = current_conditions_body upstream' parses v s).
  { unfold current_conditions_body.
    apply bind_ext; [apply client_get_value_agree |]. intros r1 s1.
    apply bind_ext; [reflexivity |]. intros [] s2.
    apply bind_ext; [reflexivity |]. intros b s3.
    apply bind_ext; [reflexivity |]. intros stations s4.
    destruct (negb (truthy stations)); [reflexivity |].
    apply bind_ext; [reflexivity |]. intros first s5.
    apply bind_ext; [reflexivity |]. intros id s6.
    apply bind_ext; [| reflexivity].
    now apply client_get_checked_agree. }
  now rewrite H.
Qed.

(** X16: a fresh cache entry shields the forecast from the points service:
    with an entry for the key that is within its time to live, the whole
    outcome of [get_forecast], result and state, is the same for any two
    upstreams that differ in their answers to the points URL only. *)
Theorem fresh_entry_shields_from_points
  (lat lon : float) (s : State) (e : CacheEntry) :
  grid_point_cache s !! cache_key lat lon = Some e ->
  within_ttl (clock (ticks s)) (timestamp e) = true ->
  get_forecast upstream clock utcnow str_exn parses lat lon s
  = get_forecast upstream' clock utcnow str_exn parses lat lon s.
Proof.
  intros Hc Hf. unfold get_forecast, try_except.
  assert (H : forecast_body upstream clock utcnow parses lat lon s
              = forecast_body upstream' clock utcnow parses lat lon s).
  { unfold forecast_body. apply bind_ext.
    - now rewrite (get_grid_point_hit upstream clock lat lon s e),
                  (get_grid_point_hit upstream' clock lat lon s e).
    - intros g s1. apply bind_ext; [apply get_hourly_forecast_agree |].
      intros h s2. apply bind_ext; [apply get_current_conditions_agree |].
      reflexivity. }
  now rewrite H.
Qed.

End TwoUpstreams.

(** ** Validation *)


End RouterEffects.

(** ** The further properties on the sample upstreams *)

Lemma unreachable_lookup_is_retried :
  let s1 := snd (get_grid_point Outage.upstream_down Sample.clock
                   40.7129 (-74.0059) Sample.state0) in
  grid_point_cache s1 = grid_point_cache Sample.state0
  /\ requests (snd (get_grid_point Outage.upstream_down Sample.clock
                      40.7129 (-74.0059) s1))
     = [PointsUrl 40.7129 (-74.0059); PointsUrl 40.7129 (-74.0059)].
Proof.
  cbv zeta.
  apply (failed_lookup_is_retried Outage.upstream_down Sample.clock
           40.7129 (-74.0059) Sample.state0 _ (RequestError "timed out")).
  - vm_compute. reflexivity.
  - vm_compute. reflexivity.
Defined.



Lemma sample_bad_period_fails_the_forecast :
  fst (get_forecast Outage.upstream_one_bad_period Sample.clock Sample.utcnow
         Sample.str_exn Sample.parses 40.7129 (-74.0059) Sample.state0)
  = Raise (HTTPException 500 "Failed to fetch weather: error").
Proof.
  destruct (one_bad_period_fails_the_forecast Outage.upstream_one_bad_period
              Sample.clock Sample.utcnow Sample.str_exn Sample.parses
              40.7129 (-74.0059) Sample.state0
              (snd (get_grid_point Outage.upstream_one_bad_period Sample.clock
                      40.7129 (-74.0059) Sample.state0))
              Sample.new_york Sample.forecast_url
              (Build_Response 200 "{...}" (Some Outage.forecast_body_one_bad))
              Outage.forecast_body_one_bad
              (JObj [("periods", JList Outage.periods_one_bad)])
              Outage.periods_one_bad Outage.period_null_container)
    as (e & _ & _ & H); [try (vm_compute; reflexivity) .. | now rewrite H].
  right. left. reflexivity.
Defined.

Lemma sample_null_container_raises :
  forecast_period Outage.period_null_container = Raise AttributeError.
Proof.
  apply (null_container_is_not_absent
           [("startTime", JStr "2024-01-01T12:00:00-05:00");
            ("temperature", JInt 44); ("temperatureUnit", JStr "F");
            ("probabilityOfPrecipitation", JNull);
            ("relativeHumidity", JObj [("value", JInt 60)]);
            ("windSpeed", JStr "12 mph"); ("windDirection", JStr "N");
            ("icon", JStr "https://api.weather.gov/icons/land/day/sct");
            ("shortForecast", JStr "Mostly Sunny"); ("isDaytime", JBool true)]
           "probabilityOfPrecipitation" JNull);
    try reflexivity; try discriminate.
  now left.
Defined.

Lemma sample_partial_points_fail :
  exists s',
    get_grid_point Outage.upstream_partial_points Sample.clock
      40.7129 (-74.0059) Sample.state0
    = (Raise (KeyError "relativeLocation"), s')
    /\ grid_point_cache s' = grid_point_cache Sample.state0
    /\ requests s' = [PointsUrl 40.7129 (-74.0059)]
    /\ get_forecast Outage.upstream_partial_points Sample.clock Sample.utcnow
         Sample.str_exn Sample.parses 40.7129 (-74.0059) Sample.state0
       = (Raise (HTTPException 500 "Failed to fetch weather: error"), s').
Proof.
  apply (partial_grid_point_is_not_cached Outage.upstream_partial_points
           Sample.clock Sample.utcnow Sample.str_exn Sample.parses
           40.7129 (-74.0059) Sample.state0
           (Build_Response 200 "{...}" (Some Outage.points_body_partial))
           Outage.points_body_partial
           (JObj [("gridId", JStr "OKX"); ("gridX", JInt 33);
                  ("gridY", JInt 35);
                  ("forecastHourly", JStr Sample.forecast_url);
                  ("observationStations", JStr Sample.stations_url)])
           (KeyError "relativeLocation"));
    vm_compute; auto.
Defined.

Lemma sample_first_station_is_asked :
  requests (snd (get_current_conditions Sample.upstream Sample.parses
                   (JStr Sample.stations_url) Sample.state0))
  = [LatestObservationUrl (JStr "https://api.weather.gov/stations/KNYC");
     Url Sample.stations_url].
Proof.
  apply (first_station_is_asked Sample.upstream Sample.parses
           Sample.stations_url Sample.state0
           (Build_Response 200 "{...}" (Some Sample.stations_body))
           Sample.stations_body
           (JObj [("id", JStr "https://api.weather.gov/stations/KNYC")])
           (JStr "https://api.weather.gov/stations/KNYC")
           [JObj [("id", JStr "https://api.weather.gov/stations/KJFK")]]);
    reflexivity.
Defined.

Lemma null_station_list_gives_None :
  get_current_conditions Outage.upstream_null_features Sample.parses
    (JStr Sample.stations_url) Sample.state0
  = (Ok None, sent (Url Sample.stations_url) Sample.state0).
Proof.
  apply (falsy_station_list_gives_None Outage.upstream_null_features
           Sample.parses Sample.stations_url Sample.state0
           (Build_Response 200 "{...}" (Some (JObj [("features", JNull)])))
           (JObj [("features", JNull)]) JNull);
    reflexivity.
Defined.

Lemma text_temperature_drops_the_conditions :
  fst (get_current_conditions Outage.upstream_text_temperature Sample.parses
         (JStr Sample.stations_url) Sample.state0) = Ok None.
Proof.
  apply (unusable_field_drops_the_conditions Outage.upstream_text_temperature
           Sample.parses Sample.stations_url Sample.state0
           (Build_Response 200 "{...}" (Some Sample.stations_body))
           (Build_Response 200 "{...}"
              (Some (JObj [("properties", Outage.observation_props_text)])))
           Sample.stations_body
           (JObj [("id", JStr "https://api.weather.gov/stations/KNYC")])
           (JStr "https://api.weather.gov/stations/KNYC")
           (JObj [("properties", Outage.observation_props_text)])
           Outage.observation_props_text
           [JObj [("id", JStr "https://api.weather.gov/stations/KJFK")]]);
    try reflexivity.
  left. exists (JStr "2.5"). split; reflexivity.
Defined.

Lemma zero_and_negative_zero_have_different_keys :
  (0 =? -0)%float = true /\ cache_key 0 (-74.0059) <> cache_key (-0) (-74.0059).
Proof.
  split; [reflexivity |].
  apply (cache_key_keeps_the_sign 0 (-74.0059) (-0) (-74.0059));
    vm_compute; discriminate.
Defined.

Lemma entry_from_the_future_is_served :
  get_grid_point Sample.upstream Sample.clock 40.7129 (-74.0059)
    {| grid_point_cache :=
         {[ "40.7129,-74.0059" :=
              {| data := Sample.new_york; timestamp := 1800000000 |} ]};
       requests := []; ticks := 0 |}
  = (Ok Sample.new_york,
     tick {| grid_point_cache :=
               {[ "40.7129,-74.0059" :=
                    {| data := Sample.new_york; timestamp := 1800000000 |} ]};
             requests := []; ticks := 0 |}).
Proof.
  destruct (ttl_is_exclusive_and_one_sided Sample.upstream Sample.clock
              40.7129 (-74.0059)
              {| grid_point_cache :=
                   {[ "40.7129,-74.0059" :=
                        {| data := Sample.new_york; timestamp := 1800000000 |} ]};
                 requests := []; ticks := 0 |}
              {| data := Sample.new_york; timestamp := 1800000000 |})
    as [_ H].
  - vm_compute. reflexivity.
  - apply H. vm_compute. reflexivity.
Defined.

Lemma twenty_converts_alike :
  celsius_to_fahrenheit (JInt 20) = celsius_to_fahrenheit (JFloat 20).
Proof.
  apply (int_and_float_convert_alike 20). lia.
Defined.

Lemma cached_forecast_survives_a_points_outage :
  get_forecast Sample.upstream Sample.clock Sample.utcnow Sample.str_exn
    Sample.parses 40.7129 (-74.0059) Sample.state_fresh
  = get_forecast Sample.upstream_points_503 Sample.clock Sample.utcnow
      Sample.str_exn Sample.parses 40.7129 (-74.0059) Sample.state_fresh.
Proof.
  apply (fresh_entry_shields_from_points Sample.upstream Sample.clock
           Sample.utcnow Sample.str_exn Sample.parses
           Sample.upstream_points_503)
    with (e := {| data := Sample.new_york; timestamp := 1699996400 |}).
  - intros n [lat lon | u | id]; reflexivity.
  - vm_compute. reflexivity.
  - vm_compute. reflexivity.
Defined.

(** ** The application of [main.py] *)


